(** * django-crowdsourcing: survey lifecycle, deduplication and typed answers

    A shallow embedding of [crowdsourcing/models.py] and of the submit view
    of [crowdsourcing/views.py], with the properties their specification
    states about them. *)

From Stdlib Require Import ZArith List Bool Ascii String.
From Stdlib Require Import PrimFloat FloatOps SpecFloat.
From stdpp Require Import gmap strings list fin_maps sorting.

Local Open Scope string_scope.
Local Open Scope Z_scope.

(** ** Python values, exceptions and truthiness *)

Module Py.

(** The objects that travel through the modelled code.  Python 2's [int] and
    [long] are one constructor, as are [str] and [unicode]. *)
Inductive value : Type :=
  | VNone
  | VBool (b : bool)
  | VInt (z : Z)
  | VFloat (f : float)
  | VStr (s : string).

Inductive exn : Type :=
  | TypeError (msg : string)
  | ValueError (msg : string)
  | OverflowError (msg : string)
  | KeyError (key : string)
  | AttributeError (msg : string).

(** A computation that returns or raises. *)
Inductive result (A : Type) : Type :=
  | Ok (a : A)
  | Raise (e : exn).
Arguments Ok {A} a.
Arguments Raise {A} e.

Definition bind {A B} (m : result A) (k : A -> result B) : result B :=
  match m with
  | Ok a => k a
  | Raise e => Raise e
  end.

Definition type_name (v : value) : string :=
  match v with
  | VNone => "NoneType"
  | VBool _ => "bool"
  | VInt _ => "int"
  | VFloat _ => "float"
  | VStr _ => "str"
  end.

(** Truth-value testing, as [if v:] and [bool(v)] perform it. *)
Definition truthy (v : value) : bool :=
  match v with
  | VNone => false
  | VBool b => b
  | VInt z => negb (z =? 0)
  | VFloat f => negb (PrimFloat.eqb f PrimFloat.zero)
  | VStr s => negb (String.eqb s "")
  end.

(** [v()]: no object of [value] is callable. *)
Definition call (v : value) : result value :=
  Raise (TypeError ("'" +:+ type_name v +:+ "' object is not callable")).

(** The builtins [int] and [float] of the interpreter the code runs on;
    [bool] is [truthy]. *)
Class Builtins : Type := {
  int_ : value -> result Z;
  float_ : value -> result float
}.

End Py.
Export Py.

Declare Scope py_scope.
Delimit Scope py_scope with py.
Notation "x <- m ;; k" := (bind m (fun x => k))
  (at level 100, m at next level, right associativity) : py_scope.
Local Open Scope py_scope.

(** ** Choice enumerations *)

(** [ChoiceEnum] lives in [util.py], outside the sources at hand; the
    specification says of it that it "maps symbolic names to stored codes". *)

Module ARCHIVE_POLICY_CHOICES.

(** Modelled from the spec: the stored code of the archive policy
    'immediate'.  The policy is kept in an integer column; the three
    policies are numbered in the order of their declaration. *)
Definition IMMEDIATE : Z := 1.

(** Modelled from the spec: the stored code of the policy 'post-close'. *)
Definition POST_CLOSE : Z := 2.

(** Modelled from the spec: the stored code of the policy 'never'. *)
Definition NEVER : Z := 3.

End ARCHIVE_POLICY_CHOICES.

Module OPTION_TYPE_CHOICES.

(** Modelled from the spec: the stored code of the option type that the
    declaration in [models.py] labels 'Boolean'. *)
Definition BOOLEAN : string := "bool".

(** Modelled from the spec: the stored code of the option type labelled
    'Float'. *)
Definition FLOAT : string := "float".

(** Modelled from the spec: the stored code of the option type labelled
    'Integer'. *)
Definition INTEGER : string := "integer".

End OPTION_TYPE_CHOICES.

(** ** Dates and query expressions *)

(** A naive [datetime], as its position on the time line (microseconds). *)
Abbreviation datetime := Z (only parsing).

(** A column that may be NULL. *)
Abbreviation nullable := option (only parsing).

(** Django's [Q] objects over rows of type [R].  A field lookup evaluates, as
    in SQL, to true, false or unknown ([None]) on a row. *)
Inductive Q (R : Type) : Type :=
  | Lookup (p : R -> option bool)
  | QAnd (a b : Q R)
  | QOr (a b : Q R)
  | QNot (a : Q R).
Arguments Lookup {R} p.
Arguments QAnd {R} a b.
Arguments QOr {R} a b.
Arguments QNot {R} a.

Definition and3 (x y : option bool) : option bool :=
  match x, y with
  | Some false, _ | _, Some false => Some false
  | Some true, Some true => Some true
  | _, _ => None
  end.

Definition or3 (x y : option bool) : option bool :=
  match x, y with
  | Some true, _ | _, Some true => Some true
  | Some false, Some false => Some false
  | _, _ => None
  end.

Definition not3 (x : option bool) : option bool := negb <$> x.

Fixpoint where_ {R} (q : Q R) (r : R) : option bool :=
  match q with
  | Lookup p => p r
  | QAnd a b => and3 (where_ a r) (where_ b r)
  | QOr a b => or3 (where_ a r) (where_ b r)
  | QNot a => not3 (where_ a r)
  end.

(** A row is selected when the condition is true on it, not when it is unknown. *)
Definition selects {R} (q : Q R) (r : R) : bool :=
  match where_ q r with
  | Some true => true
  | _ => false
  end.

(** A query set is the list of its rows; [filter] keeps the selected ones. *)
Definition qs_filter {R} (q : Q R) (rows : list R) : list R :=
  List.filter (selects q) rows.

Definition qs_none {R} (rows : list R) : list R := [].

Definition qs_count {R} (rows : list R) : Z := Z.of_nat (length rows).

(** [Meta.ordering]: rows come back sorted on [le]. *)
Definition precedes {R} (le : R -> R -> bool) (a b : R) : Prop := le a b = true.

#[global] Instance precedes_dec {R} (le : R -> R -> bool) (a b : R) :
  Decision (precedes le a b) := bool_eq_dec (le a b) true.

Definition order_by {R} (le : R -> R -> bool) (rows : list R) : list R :=
  merge_sort (precedes le) rows.

(** Ascending order on a nullable integer column; where the NULLs go is the
    choice of the database backend. *)
Definition nullable_le (nulls_first : bool) (x y : nullable Z) : bool :=
  match x, y with
  | Some a, Some b => a <=? b
  | None, None => true
  | None, Some _ => nulls_first
  | Some _, None => negb nulls_first
  end.

(** ** String methods *)

(** Which characters are whitespace and which end a line depends on the type
    of the string: [str] and [unicode] do not agree on them.  [LF] and [CR]
    end a line for both. *)
Class CharClasses : Type := {
  isspace : ascii -> bool;
  islinebreak : ascii -> bool
}.

Definition LF : ascii := ascii_of_nat 10.
Definition CR : ascii := ascii_of_nat 13.

(** The classes of a byte string: blank, tab, line feed, vertical tab, form
    feed and carriage return are whitespace; line feed and carriage return
    end a line. *)
#[global] Instance str_classes : CharClasses := {|
  isspace c := let n := nat_of_ascii c in
               (n =? 32)%nat || ((9 <=? n)%nat && (n <=? 13)%nat);
  islinebreak c := let n := nat_of_ascii c in (n =? 10)%nat || (n =? 13)%nat
|}.

Section StringMethods.
Context `{CharClasses}.

Fixpoint lstrip (cs : list ascii) : list ascii :=
  match cs with
  | c :: cs' => if isspace c then lstrip cs' else cs
  | [] => []
  end.

Definition rstrip (cs : list ascii) : list ascii := rev (lstrip (rev cs)).

(** [s.strip()] *)
Definition strip (cs : list ascii) : list ascii := rstrip (lstrip cs).

(** [s.splitlines()]: the lines without their ends.  A carriage return
    followed by a line feed ends one line; text after the last line end is a
    line when it is not empty. *)
Fixpoint splitlines (cs : list ascii) : list (list ascii) :=
  match cs with
  | [] => []
  | c :: cs' =>
      if islinebreak c then
        [] :: match cs' with
              | c' :: cs'' =>
                  if Ascii.eqb c CR && Ascii.eqb c' LF then splitlines cs''
                  else splitlines cs'
              | [] => []
              end
      else
        match splitlines cs' with
        | l :: ls => (c :: l) :: ls
        | [] => [[c]]
        end
  end.

(** A string is true when it is not empty. *)
Definition nonempty (cs : list ascii) : bool :=
  match cs with
  | [] => false
  | _ :: _ => true
  end.

End StringMethods.

(** ** The models of [models.py] *)

(** The requester: [request.user] is a stored [User] or the [AnonymousUser]. *)
Inductive User : Type :=
  | AnonymousUser
  | StoredUser (pk : Z).

Definition is_authenticated (u : User) : bool :=
  match u with
  | AnonymousUser => false
  | StoredUser _ => true
  end.

Definition is_anonymous (u : User) : bool :=
  match u with
  | AnonymousUser => true
  | StoredUser _ => false
  end.

Module Question.

Record t : Type := {
  id : Z;
  survey : Z;
  fieldname : string;
  question : string;
  help_text : string;
  required : bool;
  order : nullable Z;
  option_type : string;
  options : string;
  answer_is_public : bool
}.

(** The [parsed_options] property: [filter(None, ...)] keeps the lines that
    are not empty once stripped. *)
Definition parsed_options `{CharClasses} (self : t) : list string :=
  map string_of_list_ascii
    (List.filter nonempty
       (map strip (splitlines (list_ascii_of_string (options self))))).

End Question.

Module Answer.
Import OPTION_TYPE_CHOICES.

(** An [Answer] object in memory.  [question] is the related [Question] as
    [self.question] loads it; the columns are attributes of the object and
    hold whatever was assigned to them. *)
Record t : Type := {
  submission : Z;
  question : Question.t;
  text_answer : value;
  integer_answer : value;
  float_answer : value;
  boolean_answer : value;
  latitude : value;
  longitude : value
}.

Definition set_text_answer (self : t) (x : value) : t :=
  {| submission := submission self; question := question self;
     text_answer := x; integer_answer := integer_answer self;
     float_answer := float_answer self; boolean_answer := boolean_answer self;
     latitude := latitude self; longitude := longitude self |}.

Definition set_integer_answer (self : t) (x : value) : t :=
  {| submission := submission self; question := question self;
     text_answer := text_answer self; integer_answer := x;
     float_answer := float_answer self; boolean_answer := boolean_answer self;
     latitude := latitude self; longitude := longitude self |}.

Definition set_float_answer (self : t) (x : value) : t :=
  {| submission := submission self; question := question self;
     text_answer := text_answer self; integer_answer := integer_answer self;
     float_answer := x; boolean_answer := boolean_answer self;
     latitude := latitude self; longitude := longitude self |}.

Definition set_boolean_answer (self : t) (x : value) : t :=
  {| submission := submission self; question := question self;
     text_answer := text_answer self; integer_answer := integer_answer self;
     float_answer := float_answer self; boolean_answer := x;
     latitude := latitude self; longitude := longitude self |}.

(** The getter of the [value] property. *)
Definition get (self : t) : value :=
  let ot := Question.option_type (question self) in
  if String.eqb ot BOOLEAN then boolean_answer self
  else if String.eqb ot FLOAT then float_answer self
  else if String.eqb ot INTEGER then integer_answer self
  else text_answer self.

(** The setter of the [value] property: the object after the assignment, or
    the exception the coercion raised (the object is then as it was). *)
Definition set `{Builtins} (self : t) (v : value) : result t :=
  let ot := Question.option_type (question self) in
  if String.eqb ot BOOLEAN then
    Ok (set_boolean_answer self (VBool (truthy v)))
  else if String.eqb ot FLOAT then
    f <- float_ v ;; Ok (set_float_answer self (VFloat f))
  else if String.eqb ot INTEGER then
    z <- int_ v ;; Ok (set_integer_answer self (VInt z))
  else
    Ok (set_text_answer self v).

End Answer.

(** ** Storage and objects *)

(** Addresses of the dictionaries the code allocates. *)
Abbreviation loc := nat (only parsing).

(** A statement sent to the database. *)
Inductive query : Type :=
  | SelectAnswers (submission : Z)
  | SelectQuestion (pk : Z).

(** What a [Submission] object computes on: the answer table, the backend's
    placement of NULLs, the dictionaries allocated so far and the statements
    issued so far. *)
Record Store : Type := {
  answer_table : list Answer.t;
  nulls_first : bool;
  heap : gmap loc (gmap string value);
  queries : list query
}.

(** [dict(pairs)]: a later pair overrides an earlier one with the same key. *)
Definition dict_ (pairs : list (string * value)) : gmap string value :=
  fold_left (fun d p => <[p.1 := p.2]> d) pairs ∅.

Module Submission.

Record t : Type := {
  id : Z;
  survey : Z;
  user : nullable Z;
  email : nullable string;
  ip_address : string;
  submitted_at : datetime;
  session_key : string;
  is_public : bool
}.

(** A [Submission] object: its row, and the entries of its [__dict__] that
    are not columns. *)
Record obj : Type := {
  row : t;
  __dict__ : gmap string loc
}.

(** [self.answer_set.all()], evaluated: the answers of the submission in the
    order of [Answer.Meta.ordering = ('question',)], which is the order of
    [Question.Meta.ordering = ('order',)]. *)
Definition answer_set_all (σ : Store) (self : obj) : list Answer.t :=
  order_by
    (fun a b => nullable_le (nulls_first σ)
                  (Question.order (Answer.question a))
                  (Question.order (Answer.question b)))
    (List.filter (fun a => Answer.submission a =? id (row self)) (answer_table σ)).

(** [get_answer_dict]: the dictionary (by address), the object and the store
    after the call.  Iterating the query set issues one statement, and
    [a.question] one more for each answer. *)
Definition get_answer_dict (self : obj) (σ : Store) : loc * obj * Store :=
  match __dict__ self !! "_answer_dict" with
  | Some d => (d, self, σ)
  | None =>
      let answers := answer_set_all σ self in
      let d := dict_ (map (fun a => (Question.fieldname (Answer.question a),
                                     Answer.get a)) answers) in
      let l := fresh (dom (heap σ)) in
      let σ' := {| answer_table := answer_table σ;
                   nulls_first := nulls_first σ;
                   heap := <[l := d]> (heap σ);
                   queries := queries σ ++ SelectAnswers (id (row self))
                     :: map (fun a => SelectQuestion (Question.id (Answer.question a)))
                            answers |} in
      let self' := {| row := row self;
                      __dict__ := <["_answer_dict" := l]> (__dict__ self) |} in
      (l, self', σ')
  end.

(** [__getattr__], which Python calls for a name [k] that ordinary attribute
    lookup did not find.  Every address the object holds is allocated, so the
    last branch is not reached from the states Python builds. *)
Definition __getattr__ (self : obj) (k : string) (σ : Store)
  : result value * obj * Store :=
  let '(d, self', σ') := get_answer_dict self σ in
  match heap σ' !! d with
  | Some m =>
      match m !! k with
      | Some v => (Ok v, self', σ')
      | None => (Raise (AttributeError ("no such attribute: " +:+ k)), self', σ')
      end
  | None => (Raise (KeyError "_answer_dict"), self', σ')
  end.

End Submission.

Module Survey.
Import ARCHIVE_POLICY_CHOICES.

Record t : Type := {
  id : Z;
  title : string;
  slug : string;
  require_login : bool;
  allow_multiple_submissions : bool;
  moderate_submissions : bool;
  archive_policy : Z;
  starts_at : datetime;
  ends_at : nullable datetime;
  is_published : bool
}.

(** The [is_open] property at the time [now] that [datetime.datetime.now()]
    returns.  A [datetime] is true as a condition, so [if self.ends_at] asks
    whether the column is set. *)
Definition is_open (self : t) (now : datetime) : bool :=
  match ends_at self with
  | Some ends => (starts_at self <=? now) && (now <? ends)
  | None => starts_at self <=? now
  end.

(** Field lookups on submissions. *)
Definition survey__exact (self : t) : Q Submission.t :=
  Lookup (fun r => Some (Submission.survey r =? id self)).

Definition user__exact (u : User) : Q Submission.t :=
  Lookup (fun r =>
    match u, Submission.user r with
    | StoredUser pk, Some fk => Some (fk =? pk)
    | _, _ => None
    end).

Definition session_key__exact (k : string) : Q Submission.t :=
  Lookup (fun r => Some (String.eqb (Submission.session_key r) k)).

Definition is_public__exact (b : bool) : Q Submission.t :=
  Lookup (fun r => Some (Bool.eqb (Submission.is_public r) b)).

(** [request.session.session_key] is a string or [None]. *)
Definition session_key_value (k : option string) : value :=
  match k with
  | Some s => VStr s
  | None => VNone
  end.

(** [submissions_for], over the submission table [objects]. *)
Definition submissions_for (objects : list Submission.t)
    (self : t) (user : User) (session_key : option string) : list Submission.t :=
  let q := survey__exact self in
  if is_authenticated user then
    qs_filter (QAnd q (user__exact user)) objects
  else if truthy (session_key_value session_key) then
    (* a true [session_key] is a string, and not the empty one *)
    qs_filter (QAnd q (session_key__exact (default "" session_key))) objects
  else
    qs_none objects.

(** [self.submission_set]: the reverse side of [Submission.survey]. *)
Definition submission_set (objects : list Submission.t) (self : t)
  : list Submission.t :=
  qs_filter (survey__exact self) objects.

Definition public_submissions (objects : list Submission.t)
    (self : t) (now : datetime) : list Submission.t :=
  if (archive_policy self =? NEVER)
     || ((archive_policy self =? POST_CLOSE) && is_open self now) then
    qs_none (submission_set objects self)
  else
    qs_filter (is_public__exact true) (submission_set objects self).

End Survey.

Module LiveSurveyManager.
Import ARCHIVE_POLICY_CHOICES.

Definition is_published__exact (b : bool) : Q Survey.t :=
  Lookup (fun r => Some (Bool.eqb (Survey.is_published r) b)).

Definition starts_at__lte (x : datetime) : Q Survey.t :=
  Lookup (fun r => Some (Survey.starts_at r <=? x)).

Definition archive_policy__exact (x : Z) : Q Survey.t :=
  Lookup (fun r => Some (Survey.archive_policy r =? x)).

Definition ends_at__isnull (b : bool) : Q Survey.t :=
  Lookup (fun r => Some (Bool.eqb (bool_decide (Survey.ends_at r = None)) b)).

Definition ends_at__gt (x : datetime) : Q Survey.t :=
  Lookup (fun r => (fun e => x <? e) <$> Survey.ends_at r).

(** [get_query_set], over the survey table and at the time [now]; the rows
    come in the order of [Survey.Meta.ordering = ('-starts_at',)]. *)
Definition get_query_set (objects : list Survey.t) (now : datetime)
  : list Survey.t :=
  order_by (fun a b => Survey.starts_at b <=? Survey.starts_at a)
    (qs_filter
       (QOr (QOr (QNot (archive_policy__exact NEVER)) (ends_at__isnull true))
            (ends_at__gt now))
       (qs_filter (QAnd (is_published__exact true) (starts_at__lte now))
          objects)).

End LiveSurveyManager.

(** ** The submit view of [views.py] *)

Module views.

Record Session : Type := {
  session_key : option string;
  data : gmap string string
}.

(** The parts of the request the view looks at.  [session] is [None] when
    the request has no [session] attribute. *)
Record HttpRequest : Type := {
  user : User;
  path : string;
  session : option Session
}.

Record Database : Type := {
  submissions : list Submission.t;
  answers : list Answer.t
}.

Section Collaborators.

(** What the view calls and this repository's sources at hand do not define:
    the forms of [forms.py] and the URL resolver. *)
Variable Form : Type.
Variable forms_for_survey : Database -> Survey.t -> HttpRequest -> list Form.
Variable is_valid : Database -> Form -> bool.
Variable save : Form -> Database -> Database.
Variable reverse : string -> list (string * string) -> string.

Inductive context_value : Type :=
  | CSurvey (survey : Survey.t)
  | CForms (forms : list Form).

Inductive Response : Type :=
  | HttpResponseRedirect (url : string)
  | HttpResponse (content : string) (status : Z)
  | render_with_request (templates : list string)
      (context : list (string * context_value)).

Definition FORBIDDEN : Z := 403.

Definition set_session (request : HttpRequest) (s : Session) : HttpRequest :=
  {| user := user request; path := path request; session := Some s |}.

Definition _survey_results_redirect (request : HttpRequest) (survey : Survey.t)
    (thanks : bool) : result (Response * HttpRequest) :=
  let url := reverse "survey_results" [("slug", Survey.slug survey)] in
  let response := HttpResponseRedirect url in
  if thanks then
    match session request with
    | Some s =>
        let s' := {| session_key := session_key s;
                     data := <["survey_thanks_" +:+ Survey.slug survey := "1"]> (data s) |} in
        Ok (response, set_session request s')
    | None =>
        Raise (AttributeError "'HttpRequest' object has no attribute 'session'")
    end
  else Ok (response, request).

Definition _survey_show_form (request : HttpRequest) (survey : Survey.t)
    (forms : list Form) : Response :=
  render_with_request
    ["crowdsourcing/" +:+ Survey.slug survey +:+ "_survey_detail.html";
     "crowdsourcing/survey_detail.html"]
    [("survey", CSurvey survey); ("forms", CForms forms)].

(** [_survey_submit] at the time [now].  [is_open] is a property of the
    survey: [survey.is_open] is its boolean value, and [survey.is_open()]
    calls that value. *)
Definition _survey_submit (now : datetime) (request : HttpRequest)
    (survey : Survey.t) (db : Database)
  : result (Response * HttpRequest * Database) :=
  is_open <- call (VBool (Survey.is_open survey now)) ;;
  if negb (truthy is_open) then
    Ok (HttpResponseRedirect
          (reverse "survey_results" [("slug", Survey.slug survey)]), request, db)
  else if Survey.require_login survey && is_anonymous (user request) then
    Ok (HttpResponseRedirect
          (reverse "auth_login" [] +:+ "?next=" +:+ path request), request, db)
  else
    match session request with
    | None =>
        Ok (HttpResponse "Cookies must be enabled to use this application."
              FORBIDDEN, request, db)
    | Some s =>
        if negb (Survey.allow_multiple_submissions survey)
           && truthy (VInt (qs_count
                (Survey.submissions_for (submissions db) survey
                   (user request) (session_key s)))) then
          Ok (render_with_request
                ["crowdsourcing/" +:+ Survey.slug survey +:+ "_already_submitted.html";
                 "crowdsourcing/already_submitted.html"]
                [("survey", CSurvey survey)], request, db)
        else
          let forms := forms_for_survey db survey request in
          if forallb (is_valid db) forms then
            let db' := fold_left (fun d form => save form d) forms db in
            r <- _survey_results_redirect request survey true ;;
            Ok (r.1, r.2, db')
          else
            Ok (_survey_show_form request survey forms, request, db)
    end.

End Collaborators.

Arguments HttpResponseRedirect {Form} url.
Arguments HttpResponse {Form} content status.
Arguments render_with_request {Form} templates context.

End views.

(** ** An interpreter's builtins

    [int] and [float] as CPython 2.7 computes them on the values of [value];
    strings are read as decimal literals.  A string is a list of 8-bit
    characters, among which the ASCII digits are the only decimal digits.
    It is the instance the examples run on; the properties below hold for
    every instance. *)

Module CPython.

Definition is_space (c : ascii) : bool :=
  let n := nat_of_ascii c in
  (n =? 32)%nat || ((9 <=? n)%nat && (n <=? 13)%nat).

Definition strip (cs : list ascii) : list ascii :=
  let lstrip := fix go (l : list ascii) : list ascii :=
    match l with
    | c :: l' => if is_space c then go l' else l
    | [] => []
    end in
  rev (lstrip (rev (lstrip cs))).

Definition digit (c : ascii) : option Z :=
  let n := nat_of_ascii c in
  if (48 <=? n)%nat && (n <=? 57)%nat then Some (Z.of_nat n - 48) else None.

(** The longest prefix of digits: its value, its length and what follows. *)
Fixpoint digits (acc : Z) (len : Z) (cs : list ascii) : Z * Z * list ascii :=
  match cs with
  | c :: cs' =>
      match digit c with
      | Some d => digits (10 * acc + d) (len + 1) cs'
      | None => (acc, len, cs)
      end
  | [] => (acc, len, [])
  end.

(** An optional sign: [true] for a minus. *)
Definition sign (cs : list ascii) : bool * list ascii :=
  match cs with
  | "-"%char :: cs' => (true, cs')
  | "+"%char :: cs' => (false, cs')
  | _ => (false, cs)
  end.

Definition signed (neg : bool) (z : Z) : Z := if neg then - z else z.

(** [repr(s)] of a byte string: in single quotes, or in double quotes when
    it holds a single quote and no double quote; the quote, the backslash
    and the characters that do not print are escaped. *)
Definition hex_digit (n : nat) : ascii :=
  nth n (list_ascii_of_string "0123456789abcdef") "0"%char.

Definition repr_char (quote c : ascii) : list ascii :=
  let n := nat_of_ascii c in
  let backslash := ascii_of_nat 92 in
  if Ascii.eqb c quote || Ascii.eqb c backslash then [backslash; c]
  else if (n =? 9)%nat then [backslash; "t"%char]
  else if (n =? 10)%nat then [backslash; "n"%char]
  else if (n =? 13)%nat then [backslash; "r"%char]
  else if (n <? 32)%nat || (127 <=? n)%nat then
    [backslash; "x"%char; hex_digit (n / 16); hex_digit (n mod 16)]
  else [c].

Definition repr (s : string) : string :=
  let cs := list_ascii_of_string s in
  let single := ascii_of_nat 39 in
  let double := ascii_of_nat 34 in
  let quote :=
    if existsb (Ascii.eqb single) cs && negb (existsb (Ascii.eqb double) cs)
    then double else single in
  string_of_list_ascii (quote :: flat_map (repr_char quote) cs ++ [quote]).

Definition invalid_int (s : string) : exn :=
  ValueError ("invalid literal for int() with base 10: " +:+ repr s).

Definition int_of_string (s : string) : result Z :=
  let '(neg, cs) := sign (strip (list_ascii_of_string s)) in
  match digits 0 0 cs with
  | (z, len, []) =>
      if 0 <? len then Ok (signed neg z)
      else Raise (invalid_int s)
  | _ => Raise (invalid_int s)
  end.

(** Truncation towards zero of a finite float. *)
Definition int_of_float (f : float) : result Z :=
  match Prim2SF f with
  | S754_zero _ => Ok 0
  | S754_infinity _ =>
      Raise (OverflowError "cannot convert float infinity to integer")
  | S754_nan => Raise (ValueError "cannot convert float NaN to integer")
  | S754_finite neg m e =>
      Ok (signed neg (if 0 <=? e then Z.pos m * 2 ^ e else Z.pos m / 2 ^ (- e)))
  end.

Definition int (v : value) : result Z :=
  match v with
  | VNone =>
      Raise (TypeError "int() argument must be a string or a number, not 'NoneType'")
  | VBool b => Ok (if b then 1 else 0)
  | VInt z => Ok z
  | VFloat f => int_of_float f
  | VStr s => int_of_string s
  end.

(** The double nearest to [m * 2^e] (ties to even). *)
Definition nearest (m e : Z) : spec_float := binary_normalize prec emax m e false.

(** The double nearest to [m * 10^e], for [0 < m]: the quotient is taken
    with 64 bits and more and a last bit that records a remainder. *)
Definition nearest_decimal (m e : Z) : spec_float :=
  if 0 <=? e then nearest (m * 10 ^ e) 0
  else
    let d := 10 ^ (- e) in
    let s := Z.max 0 (Z.log2 d - Z.log2 m + 64) in
    let q := (m * 2 ^ s) / d in
    let r := (m * 2 ^ s) mod d in
    nearest (2 * q + (if r =? 0 then 0 else 1)) (- s - 1).

Definition lower (c : ascii) : ascii :=
  let n := nat_of_ascii c in
  if (65 <=? n)%nat && (n <=? 90)%nat then ascii_of_nat (n + 32) else c.

Definition exponent (cs : list ascii) : option (Z * list ascii) :=
  match cs with
  | c :: cs' =>
      if Ascii.eqb (lower c) "e" then
        let '(neg, cs'') := sign cs' in
        let '(x, len, rest) := digits 0 0 cs'' in
        if 0 <? len then Some (signed neg x, rest) else None
      else None
  | [] => Some (0, [])
  end.

Definition float_of_string (s : string) : result float :=
  let bad :=
    Raise (ValueError
      ("could not convert string to float: "
       +:+ string_of_list_ascii
             (firstn 200 (lstrip (H := str_classes) (list_ascii_of_string s)))))
  in
  let '(neg, cs) := sign (strip (list_ascii_of_string s)) in
  let word := string_of_list_ascii (map lower cs) in
  if String.eqb word "inf" || String.eqb word "infinity" then
    Ok (SF2Prim (S754_infinity neg))
  else if String.eqb word "nan" then Ok (SF2Prim S754_nan)
  else
    let '(i, ilen, cs1) := digits 0 0 cs in
    let '(m, flen, cs2) :=
      match cs1 with
      | "."%char :: cs1' => digits i 0 cs1'
      | _ => (i, 0, cs1)
      end in
    if 0 <? ilen + flen then
      match exponent cs2 with
      | Some (x, []) =>
          if m =? 0 then Ok (SF2Prim (S754_zero neg))
          else
            let sf := nearest_decimal m (x - flen) in
            Ok (SF2Prim (if neg then SFopp sf else sf))
      | _ => bad
      end
    else bad.

Definition float_of_int (z : Z) : result float :=
  match nearest z 0 with
  | S754_infinity _ => Raise (OverflowError "long int too large to convert to float")
  | sf => Ok (SF2Prim sf)
  end.

Definition float (v : value) : result PrimFloat.float :=
  match v with
  | VNone =>
      Raise (TypeError "float() argument must be a string or a number")
  | VBool b => Ok (if b then PrimFloat.one else PrimFloat.zero)
  | VInt z => float_of_int z
  | VFloat f => Ok f
  | VStr s => float_of_string s
  end.

#[global] Instance builtins : Builtins := {| int_ := int; float_ := float |}.

End CPython.

(** ** Derived notions used in the statements *)

(** The dictionary [get_answer_dict] builds from the store. *)
Definition answer_dict (self : Submission.obj) (σ : Store) : gmap string value :=
  dict_ (map (fun a => (Question.fieldname (Answer.question a), Answer.get a))
           (Submission.answer_set_all σ self)).

(** The memo of a submission object is current: there is none yet, or it is
    the address of the dictionary of the answers now in the store. *)
Definition memo_current (self : Submission.obj) (σ : Store) : Prop :=
  match Submission.__dict__ self !! "_answer_dict" with
  | Some l => heap σ !! l = Some (answer_dict self σ)
  | None => True
  end.

(** The string of one line feed. *)
Definition newline : string := String LF EmptyString.

(** A list of characters that is not empty, neither begins nor ends with
    whitespace and holds no character that ends a line. *)
Definition trimmed_chars `{CharClasses} (cs : list ascii) : Prop :=
  match cs with
  | [] => False
  | c :: r =>
      isspace c = false /\ isspace (List.last cs c) = false /\
      Forall (fun x => islinebreak x = false) cs
  end.

Definition trimmed `{CharClasses} (s : string) : Prop :=
  trimmed_chars (list_ascii_of_string s).

(** [sep.join], on lists of characters and for the separator [LF]. *)
Fixpoint join_lines (ls : list (list ascii)) : list ascii :=
  match ls with
  | [] => []
  | [l] => l
  | l :: ls' => (l ++ LF :: join_lines ls')%list
  end.

(** The page of the duplicate check. *)
Definition already_submitted {Form} (survey : Survey.t) : views.Response Form :=
  views.render_with_request
    ["crowdsourcing/" +:+ Survey.slug survey +:+ "_already_submitted.html";
     "crowdsourcing/already_submitted.html"]
    [("survey", views.CSurvey Form survey)].

(** ** Sample data

    The survey of the specification's scenario, two submissions to it, a
    question of each kind of column, and stand-ins for the forms and the
    URL resolver. *)

Module Sample.

(** Midnight of a day, counted from 1970-01-01. *)
Definition day (n : Z) : datetime := n * 86400000000.

Definition jan_1 : datetime := day 19723.
Definition jan_5 : datetime := day 19727.
Definition jan_8 : datetime := day 19730.
Definition jan_10 : datetime := day 19732.

Definition survey : Survey.t :=
  {| Survey.id := 1; Survey.title := "Favourite bridge"; Survey.slug := "bridge";
     Survey.require_login := false; Survey.allow_multiple_submissions := false;
     Survey.moderate_submissions := false;
     Survey.archive_policy := ARCHIVE_POLICY_CHOICES.POST_CLOSE;
     Survey.starts_at := jan_1; Survey.ends_at := Some jan_8;
     Survey.is_published := true |}.

Definition by_session : Submission.t :=
  {| Submission.id := 10; Submission.survey := 1; Submission.user := None;
     Submission.email := None; Submission.ip_address := "192.0.2.7";
     Submission.submitted_at := jan_5; Submission.session_key := "abc";
     Submission.is_public := true |}.

Definition hidden : Submission.t :=
  {| Submission.id := 11; Submission.survey := 1; Submission.user := Some 7;
     Submission.email := None; Submission.ip_address := "192.0.2.8";
     Submission.submitted_at := jan_5; Submission.session_key := "";
     Submission.is_public := false |}.

Definition question (pk : Z) (fieldname option_type : string) : Question.t :=
  {| Question.id := pk; Question.survey := 1; Question.fieldname := fieldname;
     Question.question := fieldname; Question.help_text := "";
     Question.required := false; Question.order := Some pk;
     Question.option_type := option_type; Question.options := "";
     Question.answer_is_public := true |}.

(** A select question, its options as an editor may leave them: spaces
    around the texts, a line ended by carriage return and line feed, a blank
    line, a line feed at the end. *)
Definition colour : Question.t :=
  {| Question.id := 3; Question.survey := 1; Question.fieldname := "colour";
     Question.question := "colour"; Question.help_text := "";
     Question.required := false; Question.order := Some 3;
     Question.option_type := "select";
     Question.options :=
       ("  red " +:+ String CR newline +:+ newline +:+ " light blue" +:+ newline);
     Question.answer_is_public := true |}.

(** The same question with its options one to a line. *)
Definition colour_tidy : Question.t :=
  {| Question.id := 3; Question.survey := 1; Question.fieldname := "colour";
     Question.question := "colour"; Question.help_text := "";
     Question.required := false; Question.order := Some 3;
     Question.option_type := "select";
     Question.options := String.concat newline ["red"; "light blue"];
     Question.answer_is_public := true |}.

(** A question whose options are blank lines. *)
Definition blank : Question.t :=
  {| Question.id := 4; Question.survey := 1; Question.fieldname := "blank";
     Question.question := "blank"; Question.help_text := "";
     Question.required := false; Question.order := Some 4;
     Question.option_type := "select";
     Question.options := ("  " +:+ newline +:+ String CR " ");
     Question.answer_is_public := true |}.

(** A question whose options are those of [colour], a line feed, and those
    of [colour_tidy]. *)
Definition colour_twice : Question.t :=
  {| Question.id := 5; Question.survey := 1; Question.fieldname := "twice";
     Question.question := "twice"; Question.help_text := "";
     Question.required := false; Question.order := Some 5;
     Question.option_type := "select";
     Question.options :=
       (Question.options colour +:+ newline +:+ Question.options colour_tidy);
     Question.answer_is_public := true |}.

(** An integer answer that still carries the text of an earlier write. *)
Definition age : Answer.t :=
  {| Answer.submission := 10; Answer.question := question 1 "age" "integer";
     Answer.text_answer := VStr "forty"; Answer.integer_answer := VInt 40;
     Answer.float_answer := VNone; Answer.boolean_answer := VNone;
     Answer.latitude := VNone; Answer.longitude := VNone |}.

Definition name : Answer.t :=
  {| Answer.submission := 10; Answer.question := question 2 "name" "char";
     Answer.text_answer := VStr "Ada"; Answer.integer_answer := VNone;
     Answer.float_answer := VNone; Answer.boolean_answer := VNone;
     Answer.latitude := VNone; Answer.longitude := VNone |}.

Definition store : Store :=
  {| answer_table := [name; age]; nulls_first := true; heap := ∅; queries := [] |}.

Definition submission : Submission.obj :=
  {| Submission.row := by_session; Submission.__dict__ := ∅ |}.

(** The object after a first access made while the submission had no answer
    yet, and the store once the answers are in the table. *)
Definition first_access : loc * Submission.obj * Store :=
  Submission.get_answer_dict submission
    {| answer_table := []; nulls_first := true; heap := ∅; queries := [] |}.

Definition later_store : Store :=
  {| answer_table := [name; age]; nulls_first := true;
     heap := heap first_access.2; queries := queries first_access.2 |}.

Definition db : views.Database :=
  {| views.submissions := [by_session; hidden]; views.answers := [name; age] |}.

Definition anonymous (key : string) : views.HttpRequest :=
  {| views.user := AnonymousUser; views.path := "/bridge/";
     views.session := Some {| views.session_key := Some key; views.data := ∅ |} |}.

(** A form stands for the submission it would store and says whether it is
    valid; every request posts one form. *)
Definition Form : Type := bool * Submission.t.

Definition forms_for_survey (db : views.Database) (survey : Survey.t)
    (request : views.HttpRequest) : list Form :=
  [(true,
    {| Submission.id := 12; Submission.survey := Survey.id survey;
       Submission.user := None; Submission.email := None;
       Submission.ip_address := "192.0.2.9"; Submission.submitted_at := jan_5;
       Submission.session_key :=
         default "" (views.session request ≫= views.session_key);
       Submission.is_public := true |})].

Definition is_valid (db : views.Database) (form : Form) : bool := form.1.

Definition save (form : Form) (db : views.Database) : views.Database :=
  {| views.submissions := views.submissions db ++ [form.2];
     views.answers := views.answers db |}.

Definition reverse (name : string) (kwargs : list (string * string)) : string :=
  fold_left (fun url kw => url +:+ kw.2 +:+ "/") kwargs ("/" +:+ name +:+ "/").

Definition _survey_submit := views._survey_submit Form forms_for_survey is_valid save reverse.

(** A survey that is not published. *)
Definition draft : Survey.t :=
  {| Survey.id := 2; Survey.title := "Favourite tunnel"; Survey.slug := "tunnel";
     Survey.require_login := false; Survey.allow_multiple_submissions := false;
     Survey.moderate_submissions := false;
     Survey.archive_policy := ARCHIVE_POLICY_CHOICES.IMMEDIATE;
     Survey.starts_at := jan_1; Survey.ends_at := None;
     Survey.is_published := false |}.



End Sample.

(** * Properties *)

Import ARCHIVE_POLICY_CHOICES OPTION_TYPE_CHOICES.

(** ** Query sets *)

Lemma in_qs_filter {R} (q : Q R) (rows : list R) (r : R) :
  In r (qs_filter q rows) <-> In r rows /\ selects q r = true.
Proof. unfold qs_filter. apply filter_In. Qed.

Lemma in_order_by {R} (le : R -> R -> bool) (rows : list R) (r : R) :
  In r (order_by le rows) <-> In r rows.
Proof.
  unfold order_by. rewrite <- !list_elem_of_In.
  by rewrite (merge_sort_Permutation (precedes le) rows).
Qed.

Lemma selects_and {R} (p q : Q R) (r : R) :
  selects (QAnd p q) r = selects p r && selects q r.
Proof.
  unfold selects; simpl.
  by destruct (where_ p r) as [[|]|], (where_ q r) as [[|]|].
Qed.

Lemma selects_lookup {R} (f : R -> bool) (r : R) :
  selects (Lookup (fun x => Some (f x))) r = f r.
Proof. unfold selects; simpl. by destruct (f r). Qed.

(** ** Survey lifecycle *)

(** C3: a survey is open at [T] exactly when it has started ([starts_at <= T])
    and either has no [ends_at] or [T < ends_at]. *)
Theorem is_open_iff (S : Survey.t) (T : datetime) :
  Survey.is_open S T = true <->
  Survey.starts_at S <= T /\
  (Survey.ends_at S = None \/ exists e, Survey.ends_at S = Some e /\ T < e).
Proof.
  unfold Survey.is_open. destruct (Survey.ends_at S) as [e|].
  - rewrite andb_true_iff, Z.leb_le, Z.ltb_lt. split.
    + intros [H1 H2]. split; [done|]. right. by exists e.
    + intros [H1 [H2|[e' [He' H2]]]]; [done|]. by inversion He'; subst.
  - rewrite Z.leb_le. split; [by auto|]. by intros [H1 _].
Qed.

Lemma selects_not_archived (S : Survey.t) (T : datetime) :
  selects
    (QOr (QOr (QNot (LiveSurveyManager.archive_policy__exact NEVER))
              (LiveSurveyManager.ends_at__isnull true))
         (LiveSurveyManager.ends_at__gt T)) S = true <->
  (Survey.archive_policy S <> NEVER \/
   Survey.ends_at S = None \/
   exists e, Survey.ends_at S = Some e /\ e > T).
Proof.
  unfold selects; simpl.
  destruct (Z.eqb_spec (Survey.archive_policy S) NEVER) as [Hp|Hp]; simpl.
  - destruct (Survey.ends_at S) as [ends|]; simpl.
    + destruct (Z.ltb_spec T ends) as [Hlt|Hge]; simpl.
      * split; [|done]. intros _. right; right. exists ends. split; [done|lia].
      * split; [done|]. intros [H|[H|[e [He H]]]]; [done|done|].
        inversion He; subst. lia.
    + split; [|done]. by auto.
  - split; [by auto|]. intros _.
    destruct (Survey.ends_at S) as [ends|]; simpl.
    + by destruct (T <? ends).
    + done.
Qed.

(** C2: a survey of the table is returned by the live manager's query at [T]
    exactly when it is published, [starts_at <= T], and its archive policy is
    not NEVER or it has no [ends_at] or [ends_at > T]. *)
Theorem live_survey_iff (objects : list Survey.t) (S : Survey.t) (T : datetime) :
  In S (LiveSurveyManager.get_query_set objects T) <->
  In S objects /\
  (Survey.is_published S = true /\
   Survey.starts_at S <= T /\
   (Survey.archive_policy S <> NEVER \/
    Survey.ends_at S = None \/
    exists e, Survey.ends_at S = Some e /\ e > T)).
Proof.
  unfold LiveSurveyManager.get_query_set.
  rewrite in_order_by, !in_qs_filter, selects_and, selects_not_archived.
  unfold LiveSurveyManager.is_published__exact, LiveSurveyManager.starts_at__lte.
  rewrite !selects_lookup, andb_true_iff, Z.leb_le.
  destruct (Survey.is_published S); simpl; tauto.
Qed.

(** ** Visibility of submissions *)

Lemma selects_survey (S : Survey.t) (r : Submission.t) :
  selects (Survey.survey__exact S) r = (Submission.survey r =? Survey.id S).
Proof.
  exact (selects_lookup (fun x => Submission.survey x =? Survey.id S) r).
Qed.

Lemma submission_set_filter (objects : list Submission.t) (S : Survey.t) :
  Survey.submission_set objects S =
  List.filter (fun r => Submission.survey r =? Survey.id S) objects.
Proof. apply filter_ext. intros r. apply selects_survey. Qed.

(** C1: [public_submissions] is empty when the archive policy is NEVER,
    whatever the [is_public] flags are, and when the policy is POST_CLOSE and
    the survey is still open; in every other case it is exactly the
    submissions of the survey whose [is_public] flag is true. *)
Theorem public_submissions_visibility
    (objects : list Submission.t) (S : Survey.t) (T : datetime) :
  (Survey.archive_policy S = NEVER ->
     Survey.public_submissions objects S T = []) /\
  (Survey.archive_policy S = POST_CLOSE -> Survey.is_open S T = true ->
     Survey.public_submissions objects S T = []) /\
  (Survey.archive_policy S <> NEVER ->
   ~ (Survey.archive_policy S = POST_CLOSE /\ Survey.is_open S T = true) ->
     Survey.public_submissions objects S T =
     List.filter Submission.is_public
       (List.filter (fun r => Submission.survey r =? Survey.id S) objects)).
Proof.
  unfold Survey.public_submissions, qs_none.
  split; [|split].
  - intros ->. by rewrite Z.eqb_refl.
  - intros -> ->. by rewrite Z.eqb_refl, ?orb_true_r.
  - intros Hnever Hpost.
    destruct (Z.eqb_spec (Survey.archive_policy S) NEVER) as [|_]; [done|].
    destruct (Z.eqb_spec (Survey.archive_policy S) POST_CLOSE) as [Hp|_]; simpl.
    + destruct (Survey.is_open S T); [by destruct Hpost|].
      rewrite submission_set_filter. apply filter_ext. intros r.
      unfold Survey.is_public__exact. rewrite selects_lookup.
      by destruct (Submission.is_public r).
    + rewrite submission_set_filter. apply filter_ext. intros r.
      unfold Survey.is_public__exact. rewrite selects_lookup.
      by destruct (Submission.is_public r).
Qed.

(** ** Attribution of submissions *)

Lemma selects_user (pk : Z) (r : Submission.t) :
  selects (Survey.user__exact (StoredUser pk)) r =
  bool_decide (Submission.user r = Some pk).
Proof.
  unfold selects; simpl. destruct (Submission.user r) as [fk|].
  - destruct (Z.eqb_spec fk pk) as [->|Hne].
    + by rewrite bool_decide_eq_true_2.
    + rewrite bool_decide_eq_false_2; [done|]. intros [=]. done.
  - by rewrite bool_decide_eq_false_2.
Qed.

(** C6: [submissions_for] returns the submissions of the survey made by the
    user when the user is authenticated; otherwise those of the survey with
    the given session key when that key is not empty; otherwise nothing. *)
Theorem submissions_for_cases
    (objects : list Submission.t) (S : Survey.t) (u : User) (k : option string) :
  (forall pk, u = StoredUser pk ->
     Survey.submissions_for objects S u k =
     List.filter (fun r => (Submission.survey r =? Survey.id S)
                           && bool_decide (Submission.user r = Some pk)) objects) /\
  (forall key, u = AnonymousUser -> k = Some key -> key <> "" ->
     Survey.submissions_for objects S u k =
     List.filter (fun r => (Submission.survey r =? Survey.id S)
                           && String.eqb (Submission.session_key r) key) objects) /\
  (u = AnonymousUser -> k = None \/ k = Some "" ->
     Survey.submissions_for objects S u k = []).
Proof.
  unfold Survey.submissions_for. split; [|split].
  - intros pk ->. simpl. apply filter_ext. intros r.
    by rewrite selects_and, selects_survey, selects_user.
  - intros key -> -> Hkey. simpl.
    destruct (String.eqb_spec key "") as [|_]; [done|]. simpl.
    apply filter_ext. intros r.
    unfold Survey.session_key__exact.
    by rewrite selects_and, selects_survey, selects_lookup.
  - intros -> [->| ->]; done.
Qed.

(** ** The typed value of an answer *)

Section AnswerValue.
Context `{Builtins}.

Lemma get_boolean (b : Answer.t) :
  Question.option_type (Answer.question b) = "bool" ->
  Answer.get b = Answer.boolean_answer b.
Proof. unfold Answer.get. by intros ->. Qed.

Lemma get_float (b : Answer.t) :
  Question.option_type (Answer.question b) = "float" ->
  Answer.get b = Answer.float_answer b.
Proof. unfold Answer.get. by intros ->. Qed.

Lemma get_integer (b : Answer.t) :
  Question.option_type (Answer.question b) = "integer" ->
  Answer.get b = Answer.integer_answer b.
Proof. unfold Answer.get. by intros ->. Qed.

Lemma get_text (b : Answer.t) :
  Question.option_type (Answer.question b) <> "bool" ->
  Question.option_type (Answer.question b) <> "float" ->
  Question.option_type (Answer.question b) <> "integer" ->
  Answer.get b = Answer.text_answer b.
Proof.
  unfold Answer.get, BOOLEAN, FLOAT, INTEGER. intros Hb Hf Hi.
  by rewrite !(proj2 (String.eqb_neq _ _)).
Qed.

(** C4: writing [v] through [Answer.value] and reading it back gives
    [bool(v)] when the question's option type is bool, [float(v)] when it is
    float and [float] accepts [v], [int(v)] when it is integer and [int]
    accepts [v], and [v] itself for any other option type; and the getter
    returns, for any answer, the column its question's option type selects:
    [boolean_answer], [float_answer], [integer_answer], or [text_answer]
    for all other option types. *)
Theorem answer_value_roundtrip (a : Answer.t) (v : value) :
  (Question.option_type (Answer.question a) = "bool" ->
     exists a', Answer.set a v = Ok a' /\ Answer.get a' = VBool (truthy v)) /\
  (Question.option_type (Answer.question a) = "float" ->
     forall f, float_ v = Ok f ->
     exists a', Answer.set a v = Ok a' /\ Answer.get a' = VFloat f) /\
  (Question.option_type (Answer.question a) = "integer" ->
     forall z, int_ v = Ok z ->
     exists a', Answer.set a v = Ok a' /\ Answer.get a' = VInt z) /\
  (Question.option_type (Answer.question a) <> "bool" ->
   Question.option_type (Answer.question a) <> "float" ->
   Question.option_type (Answer.question a) <> "integer" ->
     exists a', Answer.set a v = Ok a' /\ Answer.get a' = v) /\
  (forall b : Answer.t,
     (Question.option_type (Answer.question b) = "bool" ->
        Answer.get b = Answer.boolean_answer b) /\
     (Question.option_type (Answer.question b) = "float" ->
        Answer.get b = Answer.float_answer b) /\
     (Question.option_type (Answer.question b) = "integer" ->
        Answer.get b = Answer.integer_answer b) /\
     (Question.option_type (Answer.question b) <> "bool" ->
      Question.option_type (Answer.question b) <> "float" ->
      Question.option_type (Answer.question b) <> "integer" ->
        Answer.get b = Answer.text_answer b)).
Proof.
  repeat split.
  - intros Ht. unfold Answer.set. rewrite Ht. simpl.
    eexists. split; [done|]. by rewrite get_boolean.
  - intros Ht f Hf. unfold Answer.set. rewrite Ht, Hf. simpl.
    eexists. split; [done|]. by rewrite get_float.
  - intros Ht z Hz. unfold Answer.set. rewrite Ht, Hz. simpl.
    eexists. split; [done|]. by rewrite get_integer.
  - intros Hb Hf Hi. unfold Answer.set, BOOLEAN, FLOAT, INTEGER.
    rewrite !(proj2 (String.eqb_neq _ _)) by done.
    eexists. split; [done|]. by rewrite get_text.
  - apply get_boolean.
  - apply get_float.
  - apply get_integer.
  - apply get_text.
Qed.

(** C8: a write through [Answer.value] changes only the typed column that
    the question's option type selects: each of the other three typed
    columns, the latitude, the longitude and the links to the question and
    the submission are as they were before the write, whatever an earlier
    write had left in them. *)
Theorem answer_value_set_frame (a a' : Answer.t) (v : value) :
  Answer.set a v = Ok a' ->
  (Question.option_type (Answer.question a) <> "bool" ->
     Answer.boolean_answer a' = Answer.boolean_answer a) /\
  (Question.option_type (Answer.question a) <> "float" ->
     Answer.float_answer a' = Answer.float_answer a) /\
  (Question.option_type (Answer.question a) <> "integer" ->
     Answer.integer_answer a' = Answer.integer_answer a) /\
  (Question.option_type (Answer.question a) = "bool" \/
   Question.option_type (Answer.question a) = "float" \/
   Question.option_type (Answer.question a) = "integer" ->
     Answer.text_answer a' = Answer.text_answer a) /\
  Answer.latitude a' = Answer.latitude a /\
  Answer.longitude a' = Answer.longitude a /\
  Answer.question a' = Answer.question a /\
  Answer.submission a' = Answer.submission a.
Proof.
  unfold Answer.set, BOOLEAN, FLOAT, INTEGER.
  destruct (String.eqb_spec (Question.option_type (Answer.question a)) "bool")
    as [Hb|Hb].
  { intros [= <-]. simpl. rewrite Hb. repeat split; done. }
  destruct (String.eqb_spec (Question.option_type (Answer.question a)) "float")
    as [Hf|Hf].
  { destruct (float_ v) as [f|e]; simpl; [|done].
    intros [= <-]. simpl. rewrite Hf. repeat split; done. }
  destruct (String.eqb_spec (Question.option_type (Answer.question a)) "integer")
    as [Hi|Hi].
  { destruct (int_ v) as [z|e]; simpl; [|done].
    intros [= <-]. simpl. rewrite Hi. repeat split; done. }
  intros [= <-]. simpl. repeat split; try done.
  intros [?|[?|?]]; done.
Qed.

End AnswerValue.

(** ** The answer dictionary of a submission *)

Lemma in_answer_set_all (σ : Store) (self : Submission.obj) (a : Answer.t) :
  In a (Submission.answer_set_all σ self) <->
  In a (answer_table σ) /\ Answer.submission a = Submission.id (Submission.row self).
Proof.
  unfold Submission.answer_set_all.
  by rewrite in_order_by, filter_In, Z.eqb_eq.
Qed.

Lemma fold_insert_lookup_None (pairs : list (string * value))
    (d : gmap string value) (k : string) :
  fold_left (fun d p => <[p.1 := p.2]> d) pairs d !! k = None <->
  d !! k = None /\ forall p, In p pairs -> p.1 <> k.
Proof.
  revert d. induction pairs as [|p pairs IH]; intros d; simpl.
  - split; [by auto|]. by intros [? _].
  - rewrite IH, lookup_insert_None. split.
    + intros [[Hd Hp] Hall]. split; [done|]. intros q [<-|Hq]; by auto.
    + intros [Hd Hall]. repeat split; by auto.
Qed.

Lemma fold_insert_lookup_Some (pairs : list (string * value))
    (d : gmap string value) (k : string) (v : value) :
  fold_left (fun d p => <[p.1 := p.2]> d) pairs d !! k = Some v ->
  In (k, v) pairs \/ d !! k = Some v.
Proof.
  revert d. induction pairs as [|p pairs IH]; intros d; simpl; [by auto|].
  intros Hk. destruct (IH _ Hk) as [Hin|Hd]; [by auto|].
  apply lookup_insert_Some in Hd as [[<- <-]|[_ Hd]]; [|by auto].
  left; left. by destruct p.
Qed.

Lemma dict_lookup_None (pairs : list (string * value)) (k : string) :
  dict_ pairs !! k = None <-> forall p, In p pairs -> p.1 <> k.
Proof.
  unfold dict_. rewrite fold_insert_lookup_None, lookup_empty.
  split; [by intros [_ Hall]|by intros Hall].
Qed.

Lemma dict_lookup_Some (pairs : list (string * value)) (k : string) (v : value) :
  dict_ pairs !! k = Some v -> In (k, v) pairs.
Proof.
  unfold dict_. intros Hk.
  destruct (fold_insert_lookup_Some _ _ _ _ Hk) as [Hin|Hd]; [done|].
  by rewrite lookup_empty in Hd.
Qed.

(** After a call the memo is set, and it is the address returned. *)
Lemma get_answer_dict_memo (self : Submission.obj) (σ : Store) :
  Submission.__dict__ (Submission.get_answer_dict self σ).1.2 !! "_answer_dict"
  = Some (Submission.get_answer_dict self σ).1.1.
Proof.
  unfold Submission.get_answer_dict.
  destruct (Submission.__dict__ self !! "_answer_dict") as [l|] eqn:Hl; simpl.
  - done.
  - apply lookup_insert_eq.
Qed.

(** C9: the first call of [get_answer_dict] on a submission object leaves
    the address it returns in the object, under [_answer_dict].  When the
    object had no such entry, the address is a new one and holds the
    dictionary built from the answers of the submission; when it had one,
    the call returns it and changes nothing.  A second call returns the very
    dictionary (the same address) that the first call returned, and issues
    no statement: the list of statements, the store and the object are as
    the first call left them. *)
Theorem get_answer_dict_memoized (self : Submission.obj) (σ : Store) :
  let first := Submission.get_answer_dict self σ in
  let second := Submission.get_answer_dict first.1.2 first.2 in
  Submission.__dict__ first.1.2 !! "_answer_dict" = Some first.1.1 /\
  match Submission.__dict__ self !! "_answer_dict" with
  | None =>
      heap σ !! first.1.1 = None /\
      heap first.2 !! first.1.1 = Some (answer_dict self σ)
  | Some d => first = (d, self, σ)
  end /\
  second.1.1 = first.1.1 /\
  queries second.2 = queries first.2 /\
  heap second.2 !! second.1.1 = heap first.2 !! first.1.1 /\
  second = first.
Proof.
  simpl.
  assert (Submission.get_answer_dict
            (Submission.get_answer_dict self σ).1.2
            (Submission.get_answer_dict self σ).2
          = Submission.get_answer_dict self σ) as Hsame.
  { unfold Submission.get_answer_dict at 1.
    rewrite get_answer_dict_memo.
    by destruct (Submission.get_answer_dict self σ) as [[d self'] σ']. }
  split; [apply get_answer_dict_memo|]. split; [|by rewrite Hsame].
  unfold Submission.get_answer_dict.
  destruct (Submission.__dict__ self !! "_answer_dict") as [d|]; simpl.
  - done.
  - split; [apply not_elem_of_dom, is_fresh|apply lookup_insert_eq].
Qed.

(** The dictionary that [__getattr__] consults is the one of the answers in
    the store. *)
Lemma get_answer_dict_current (self : Submission.obj) (σ : Store) :
  memo_current self σ ->
  heap (Submission.get_answer_dict self σ).2
    !! (Submission.get_answer_dict self σ).1.1 = Some (answer_dict self σ).
Proof.
  unfold memo_current, Submission.get_answer_dict.
  destruct (Submission.__dict__ self !! "_answer_dict") as [l|]; simpl.
  - done.
  - intros _. apply lookup_insert_eq.
Qed.

Lemma getattr_lookup (self : Submission.obj) (σ : Store) (k : string) :
  memo_current self σ ->
  (Submission.__getattr__ self k σ).1.1 =
  match answer_dict self σ !! k with
  | Some v => Ok v
  | None => Raise (AttributeError ("no such attribute: " +:+ k))
  end.
Proof.
  intros Hmemo. unfold Submission.__getattr__.
  pose proof (get_answer_dict_current self σ Hmemo) as Hd.
  destruct (Submission.get_answer_dict self σ) as [[d self'] σ']. simpl in Hd.
  rewrite Hd. by destruct (answer_dict self σ !! k).
Qed.

(** C10, for an object whose memoized dictionary is current (there is none
    yet, or it is still the dictionary of the stored answers): for a name [k]
    that ordinary lookup does not find, attribute access on a submission
    returns the value of an answer of that submission whose question has
    fieldname [k] when there is one, and raises AttributeError when no answer
    of the submission has fieldname [k]. *)
Theorem getattr_falls_back (self : Submission.obj) (σ : Store) (k : string) :
  memo_current self σ ->
  ((exists a, In a (answer_table σ) /\
              Answer.submission a = Submission.id (Submission.row self) /\
              Question.fieldname (Answer.question a) = k) ->
   exists a, In a (answer_table σ) /\
             Answer.submission a = Submission.id (Submission.row self) /\
             Question.fieldname (Answer.question a) = k /\
             (Submission.__getattr__ self k σ).1.1 = Ok (Answer.get a)) /\
  ((forall a, In a (answer_table σ) ->
              Answer.submission a = Submission.id (Submission.row self) ->
              Question.fieldname (Answer.question a) <> k) ->
   (Submission.__getattr__ self k σ).1.1 =
   Raise (AttributeError ("no such attribute: " +:+ k))).
Proof.
  intros Hmemo. rewrite (getattr_lookup self σ k Hmemo). unfold answer_dict.
  split.
  - intros (a & Hin & Hsub & Hk).
    destruct (dict_ _ !! k) as [v|] eqn:Hv.
    + apply dict_lookup_Some, in_map_iff in Hv as (b & [= Hkb Hvb] & Hb).
      apply in_answer_set_all in Hb as [Hb1 Hb2].
      exists b. by rewrite Hvb.
    + exfalso. rewrite dict_lookup_None in Hv.
      apply (Hv (Question.fieldname (Answer.question a), Answer.get a)); [|done].
      apply in_map_iff. exists a. split; [done|].
      by apply in_answer_set_all.
  - intros Hnone.
    destruct (dict_ _ !! k) as [v|] eqn:Hv; [|done].
    apply dict_lookup_Some, in_map_iff in Hv as (b & [= Hkb Hvb] & Hb).
    apply in_answer_set_all in Hb as [Hb1 Hb2].
    by destruct (Hnone b Hb1 Hb2).
Qed.

(** ** The submit view *)

Section SubmitView.

Variable Form : Type.
Variable forms_for_survey : views.Database -> Survey.t -> views.HttpRequest -> list Form.
Variable is_valid : views.Database -> Form -> bool.
Variable save : Form -> views.Database -> views.Database.
Variable reverse : string -> list (string * string) -> string.

(** The first statement of [_survey_submit] calls a boolean: every request
    ends there, whatever the survey, the requester and the time. *)
Lemma survey_submit_raises (now : datetime) (request : views.HttpRequest)
    (survey : Survey.t) (db : views.Database) :
  views._survey_submit Form forms_for_survey is_valid save reverse
    now request survey db
  = Raise (TypeError "'bool' object is not callable").
Proof. reflexivity. Qed.

End SubmitView.

(** ** The properties at the sample data *)

(** The scenario of the specification: open and without public results on
    5 January, closed and showing the public submissions on 10 January. *)
Example scenario_post_close :
  Survey.is_open Sample.survey Sample.jan_5 = true /\
  Survey.public_submissions (views.submissions Sample.db) Sample.survey Sample.jan_5 = [] /\
  Survey.is_open Sample.survey Sample.jan_10 = false /\
  Survey.public_submissions (views.submissions Sample.db) Sample.survey Sample.jan_10
  = [Sample.by_session].
Proof. repeat split; reflexivity. Qed.

(** The closed survey is still listed on 10 January, and was not before it
    started. *)
Example scenario_live :
  LiveSurveyManager.get_query_set [Sample.survey] Sample.jan_10 = [Sample.survey] /\
  LiveSurveyManager.get_query_set [Sample.survey] (Sample.day 19000) = [].
Proof. split; reflexivity. Qed.

(** The scenario of the specification: assigning "42" to the value of an
    answer to an integer question stores 42, and the value reads 42. *)
Example scenario_integer :
  Answer.set Sample.age (VStr "42")
  = Ok (Answer.set_integer_answer Sample.age (VInt 42)) /\
  Answer.get (Answer.set_integer_answer Sample.age (VInt 42)) = VInt 42 /\
  Answer.set Sample.age (VStr "forty-two")
  = Raise (ValueError "invalid literal for int() with base 10: 'forty-two'").
Proof. repeat split; reflexivity. Qed.

(** The session "abc" has one submission to the sample survey, user 7 has
    one, and a requester with neither has none. *)
Example scenario_submissions_for :
  Survey.submissions_for (views.submissions Sample.db) Sample.survey
    AnonymousUser (Some "abc") = [Sample.by_session] /\
  Survey.submissions_for (views.submissions Sample.db) Sample.survey
    (StoredUser 7) (Some "abc") = [Sample.hidden] /\
  Survey.submissions_for (views.submissions Sample.db) Sample.survey
    AnonymousUser None = [].
Proof. repeat split; reflexivity. Qed.

Example scenario_answer_dict :
  let first := Submission.get_answer_dict Sample.submission Sample.store in
  heap first.2 !! first.1.1
  = Some {[ "age" := VInt 40; "name" := VStr "Ada" ]} /\
  queries first.2 = [SelectAnswers 10; SelectQuestion 1; SelectQuestion 2] /\
  (Submission.__getattr__ Sample.submission "age" Sample.store).1.1 = Ok (VInt 40).
Proof. repeat split; vm_compute; reflexivity. Qed.

(** A write on an answer that carries the text of an earlier write: the
    integer column changes, the text stays. *)
Lemma answer_value_set_frame_witness :
  Answer.set Sample.age (VStr "42")
  = Ok (Answer.set_integer_answer Sample.age (VInt 42)) /\
  Answer.text_answer (Answer.set_integer_answer Sample.age (VInt 42))
  = VStr "forty".
Proof.
  split; [reflexivity|].
  destruct (@answer_value_set_frame CPython.builtins Sample.age
              (Answer.set_integer_answer Sample.age (VInt 42)) (VStr "42")
              eq_refl) as (_ & _ & _ & Htext & _).
  rewrite Htext; [reflexivity|]. right; right; reflexivity.
Defined.

Lemma getattr_falls_back_witness :
  memo_current Sample.submission Sample.store /\
  (exists a, In a (answer_table Sample.store) /\
             Answer.submission a = 10 /\
             Question.fieldname (Answer.question a) = "age" /\
             (Submission.__getattr__ Sample.submission "age" Sample.store).1.1
             = Ok (Answer.get a)) /\
  (Submission.__getattr__ Sample.submission "colour" Sample.store).1.1
  = Raise (AttributeError "no such attribute: colour").
Proof.
  split; [exact I|]. split.
  - apply (getattr_falls_back Sample.submission Sample.store "age" I).
    exists Sample.age. repeat split; [right; left|..]; reflexivity.
  - apply (getattr_falls_back Sample.submission Sample.store "colour" I).
    intros a [<-|[<-|[]]] _; discriminate.
Defined.

(** C10 does not hold as stated on an object that memoized its dictionary before the
    answers were stored: an answer with fieldname "age" is in the table, and
    the attribute access raises AttributeError. *)
Lemma getattr_stale_counterexample :
  In Sample.age (answer_table Sample.later_store) /\
  Answer.submission Sample.age
  = Submission.id (Submission.row Sample.first_access.1.2) /\
  Question.fieldname (Answer.question Sample.age) = "age" /\
  (Submission.__getattr__ Sample.first_access.1.2 "age" Sample.later_store).1.1
  = Raise (AttributeError "no such attribute: age").
Proof. repeat split; [right; left|..]; reflexivity. Qed.

(** C7 at a closed survey: on 10 January the sample survey is not open, and
    the POST is answered by a TypeError, not by the redirect to the results
    page. *)
Theorem survey_submit_closed_raises :
  Survey.is_open Sample.survey Sample.jan_10 = false /\
  Sample._survey_submit Sample.jan_10 (Sample.anonymous "abc")
    Sample.survey Sample.db
  = Raise (TypeError "'bool' object is not callable").
Proof. split; reflexivity. Qed.

(** C5 at an open survey that takes one submission per requester and asks
    for no login: on 5 January the POST of the session "abc", which has a
    submission to the survey, is answered by a TypeError and not by the
    "already submitted" page; and the POST of the session "xyz", which has
    none, is answered by the same TypeError and stores nothing. *)
Theorem duplicate_check_not_reached :
  Survey.is_open Sample.survey Sample.jan_5 = true /\
  Survey.allow_multiple_submissions Sample.survey = false /\
  Survey.require_login Sample.survey = false /\
  Survey.submissions_for (views.submissions Sample.db) Sample.survey
    AnonymousUser (Some "abc") = [Sample.by_session] /\
  Sample._survey_submit Sample.jan_5 (Sample.anonymous "abc")
    Sample.survey Sample.db
  = Raise (TypeError "'bool' object is not callable") /\
  Sample._survey_submit Sample.jan_5 (Sample.anonymous "abc")
    Sample.survey Sample.db
  <> Ok (already_submitted Sample.survey, Sample.anonymous "abc", Sample.db) /\
  Survey.submissions_for (views.submissions Sample.db) Sample.survey
    AnonymousUser (Some "xyz") = [] /\
  Sample._survey_submit Sample.jan_5 (Sample.anonymous "xyz")
    Sample.survey Sample.db
  = Raise (TypeError "'bool' object is not callable").
Proof. repeat split; try reflexivity. discriminate. Qed.

(** * Further properties *)

Local Open Scope list_scope.

(** ** Parsed options *)

Section ParsedOptions.
Context `{CharClasses}.

Lemma list_ind_two {A} (P : list A -> Prop) :
  P [] -> (forall a, P [a]) ->
  (forall a b l, P l -> P (b :: l) -> P (a :: b :: l)) ->
  forall l, P l.
Proof.
  intros Hnil Hone Hstep l.
  assert (P l /\ forall a, P (a :: l)) as [Hl _]; [|done].
  induction l as [|b l [IH1 IH2]]; [by auto|].
  split; [by apply IH2|]. intros a. by apply Hstep.
Qed.

Lemma lstrip_spec (cs : list ascii) :
  exists pre, cs = pre ++ lstrip cs /\ Forall (fun c => isspace c = true) pre.
Proof.
  induction cs as [|c cs (pre & Hcs & Hpre)]; simpl.
  - by exists [].
  - destruct (isspace c) eqn:Hc.
    + exists (c :: pre). split; [simpl; by f_equal|by constructor].
    + by exists [].
Qed.

Lemma lstrip_head (cs : list ascii) (c : ascii) (r : list ascii) :
  lstrip cs = c :: r -> isspace c = false.
Proof.
  induction cs as [|x cs IH]; simpl; [done|].
  destruct (isspace x) eqn:Hx; [done|]. by intros [= <- _].
Qed.

Lemma lstrip_spaces (cs : list ascii) :
  Forall (fun c => isspace c = true) cs -> lstrip cs = [].
Proof. induction 1 as [|c cs Hc _ IH]; simpl; [done|]. by rewrite Hc. Qed.

Lemma strip_spaces (cs : list ascii) :
  Forall (fun c => isspace c = true) cs -> strip cs = [].
Proof. intros Hcs. unfold strip, rstrip. by rewrite (lstrip_spaces cs Hcs). Qed.

Lemma lstrip_Forall (P : ascii -> Prop) (cs : list ascii) :
  Forall P cs -> Forall P (lstrip cs).
Proof.
  destruct (lstrip_spec cs) as (pre & Hcs & _). intros HP.
  rewrite Hcs in HP. by apply Forall_app in HP as [_ ?].
Qed.

Lemma strip_Forall (P : ascii -> Prop) (cs : list ascii) :
  Forall P cs -> Forall P (strip cs).
Proof.
  intros HP. unfold strip, rstrip.
  apply Forall_rev, lstrip_Forall, Forall_rev. by apply lstrip_Forall.
Qed.

(** A stripped string, when not empty, begins and ends with a character
    that is not whitespace. *)
Lemma strip_ends (cs : list ascii) (c : ascii) (r : list ascii) :
  strip cs = c :: r ->
  isspace c = false /\ isspace (List.last (c :: r) c) = false.
Proof.
  unfold strip, rstrip. intros Hz.
  assert (lstrip (rev (lstrip cs)) = rev (c :: r)) as Hrev
    by (by rewrite <- Hz, rev_involutive).
  split.
  - destruct (lstrip_spec (rev (lstrip cs))) as (pre & Hpre & _).
    rewrite Hrev in Hpre.
    assert (lstrip cs = (c :: r) ++ rev pre) as Hy.
    { rewrite <- (rev_involutive (lstrip cs)), Hpre, rev_app_distr.
      by rewrite rev_involutive. }
    by apply (lstrip_head cs c (r ++ rev pre)).
  - destruct (rev (c :: r)) as [|x xs] eqn:Hx.
    { by apply (f_equal (@length _)) in Hx; rewrite length_rev in Hx. }
    assert (c :: r = rev xs ++ [x]) as ->.
    { by rewrite <- (rev_involutive (c :: r)), Hx. }
    rewrite last_last. by apply (lstrip_head _ _ _ Hrev).
Qed.

Lemma strip_trimmed (c : ascii) (r : list ascii) :
  isspace c = false -> isspace (List.last (c :: r) c) = false ->
  strip (c :: r) = c :: r.
Proof.
  intros Hc Hlast. unfold strip, rstrip.
  assert (lstrip (c :: r) = c :: r) as -> by (simpl; by rewrite Hc).
  destruct (rev (c :: r)) as [|x xs] eqn:Hx.
  { by apply (f_equal (@length _)) in Hx; rewrite length_rev in Hx. }
  assert (c :: r = rev xs ++ [x]) as Hcr.
  { by rewrite <- (rev_involutive (c :: r)), Hx. }
  rewrite Hcr, last_last in Hlast. simpl. rewrite Hlast.
  by rewrite <- Hx, rev_involutive.
Qed.

Lemma splitlines_Forall (P : ascii -> Prop) (cs : list ascii) :
  Forall P cs -> Forall (Forall P) (splitlines cs).
Proof.
  induction cs as [|a|a b l IH1 IH2] using list_ind_two; intros HP.
  - constructor.
  - simpl. destruct (islinebreak a); repeat constructor.
    by inversion HP.
  - inversion HP as [|? ? Ha Hbl]; subst. inversion Hbl as [|? ? Hb Hl]; subst.
    specialize (IH1 Hl). specialize (IH2 Hbl).
    change (splitlines (a :: b :: l)) with
      (if islinebreak a then
         [] :: (if Ascii.eqb a CR && Ascii.eqb b LF then splitlines l
                else splitlines (b :: l))
       else match splitlines (b :: l) with
            | x :: xs => (a :: x) :: xs
            | [] => [[a]]
            end).
    destruct (islinebreak a).
    + constructor; [done|]. by destruct (_ && _).
    + destruct (splitlines (b :: l)) as [|x xs]; [by repeat constructor|].
      inversion IH2; subst. by repeat constructor.
Qed.

(** No line holds a character that ends a line. *)
Lemma splitlines_no_break (cs : list ascii) :
  Forall (Forall (fun c => islinebreak c = false)) (splitlines cs).
Proof.
  induction cs as [|a|a b l IH1 IH2] using list_ind_two.
  - constructor.
  - simpl. destruct (islinebreak a) eqn:Ha; by repeat constructor.
  - change (splitlines (a :: b :: l)) with
      (if islinebreak a then
         [] :: (if Ascii.eqb a CR && Ascii.eqb b LF then splitlines l
                else splitlines (b :: l))
       else match splitlines (b :: l) with
            | x :: xs => (a :: x) :: xs
            | [] => [[a]]
            end).
    destruct (islinebreak a) eqn:Ha.
    + constructor; [done|]. by destruct (_ && _).
    + destruct (splitlines (b :: l)) as [|x xs]; [by repeat constructor|].
      inversion IH2; subst. by repeat constructor.
Qed.

(** The lines kept by [parsed_options], as lists of characters. *)
Lemma parsed_options_chars (q : Question.t) :
  Question.parsed_options q =
  map string_of_list_ascii
    (List.filter nonempty
       (map strip (splitlines (list_ascii_of_string (Question.options q))))).
Proof. reflexivity. Qed.

Lemma kept_lines_trimmed (cs : list ascii) :
  Forall trimmed_chars (List.filter nonempty (map strip (splitlines cs))).
Proof.
  pose proof (splitlines_no_break cs) as Hlines.
  induction Hlines as [|l ls Hl _ IH]; simpl; [constructor|].
  destruct (strip l) as [|c r] eqn:Hs; simpl; [done|].
  constructor; [|done].
  destruct (strip_ends l c r Hs) as [Hc Hlast].
  repeat split; [done..|].
  rewrite <- Hs. by apply strip_Forall.
Qed.

Lemma kept_lines_blank (cs : list ascii) :
  Forall (fun c => isspace c = true \/ islinebreak c = true) cs ->
  List.filter nonempty (map strip (splitlines cs)) = [].
Proof.
  intros Hcs.
  pose proof (splitlines_no_break cs) as Hnb.
  pose proof (splitlines_Forall _ cs Hcs) as Hsp.
  induction Hnb as [|l ls Hl _ IH]; simpl; [done|].
  inversion Hsp as [|? ? Hl' Hls']; subst.
  rewrite strip_spaces; [by apply IH|].
  rewrite Forall_forall in *. intros c Hc.
  destruct (Hl' c Hc) as [|Hbreak]; [done|]. by rewrite (Hl c Hc) in Hbreak.
Qed.

Lemma splitlines_line (l : list ascii) :
  l <> [] -> Forall (fun c => islinebreak c = false) l -> splitlines l = [l].
Proof.
  induction l as [|a|a b l _ IH] using list_ind_two; intros Hne Hl; [done|..].
  - simpl. inversion Hl as [|? ? Ha _]; subst. by rewrite Ha.
  - inversion Hl as [|? ? Ha Hbl]; subst.
    change (splitlines (a :: b :: l)) with
      (if islinebreak a then
         [] :: (if Ascii.eqb a CR && Ascii.eqb b LF then splitlines l
                else splitlines (b :: l))
       else match splitlines (b :: l) with
            | x :: xs => (a :: x) :: xs
            | [] => [[a]]
            end).
    rewrite Ha, IH; done.
Qed.

Lemma splitlines_line_cons (l rest : list ascii) :
  islinebreak LF = true ->
  Forall (fun c => islinebreak c = false) l ->
  splitlines (l ++ LF :: rest) = l :: splitlines rest.
Proof.
  intros HLF Hl. induction Hl as [|a l Ha _ IH].
  - simpl. rewrite HLF. by destruct rest.
  - change (splitlines ((a :: l) ++ LF :: rest)) with
      (if islinebreak a then
         [] :: match l ++ LF :: rest with
               | c' :: cs'' =>
                   if Ascii.eqb a CR && Ascii.eqb c' LF then splitlines cs''
                   else splitlines (l ++ LF :: rest)
               | [] => []
               end
       else match splitlines (l ++ LF :: rest) with
            | x :: xs => (a :: x) :: xs
            | [] => [[a]]
            end).
    by rewrite Ha, IH.
Qed.

Lemma kept_lines_join (ls : list (list ascii)) :
  islinebreak LF = true ->
  Forall trimmed_chars ls ->
  List.filter nonempty (map strip (splitlines (join_lines ls))) = ls.
Proof.
  intros HLF Hls. induction Hls as [|l ls Hl Hls IH]; [done|].
  destruct l as [|c r]; [done|]. destruct Hl as (Hc & Hlast & Hnb).
  destruct ls as [|l' ls].
  - simpl join_lines. rewrite splitlines_line by done. simpl.
    by rewrite strip_trimmed.
  - change (join_lines ((c :: r) :: l' :: ls))
      with ((c :: r) ++ LF :: join_lines (l' :: ls)).
    rewrite splitlines_line_cons, map_cons, strip_trimmed by done.
    cbn [List.filter nonempty]. by rewrite IH.
Qed.

Lemma list_ascii_of_string_app (a b : string) :
  list_ascii_of_string (a ++ b)%string
  = list_ascii_of_string a ++ list_ascii_of_string b.
Proof. induction a as [|c a IH]; simpl; [done|]. by rewrite IH. Qed.

Lemma splitlines_cons_nonempty (c : ascii) (cs : list ascii) :
  splitlines (c :: cs) <> [].
Proof.
  simpl. destruct (islinebreak c); [done|]. by destruct (splitlines cs).
Qed.

(** The lines of a text followed by a line feed and a second text: those of
    the first text, an empty line at most, and those of the second. *)
Lemma splitlines_app (a b : list ascii) :
  islinebreak LF = true ->
  exists X, splitlines (a ++ LF :: b) = X ++ splitlines b /\
            (X = splitlines a \/ X = splitlines a ++ [[]]).
Proof.
  intros HLF.
  assert (splitlines (LF :: b) = [] :: splitlines b) as Hlf.
  { simpl. rewrite HLF. by destruct b. }
  induction a as [|c|c d l IH1 IH2] using list_ind_two.
  - exists [[]]. split; [done|by right].
  - change (splitlines ([c] ++ LF :: b)) with
      (if islinebreak c then
         [] :: (if Ascii.eqb c CR && Ascii.eqb LF LF then splitlines b
                else splitlines (LF :: b))
       else match splitlines (LF :: b) with
            | x :: xs => (c :: x) :: xs
            | [] => [[c]]
            end).
    rewrite Hlf. simpl splitlines. destruct (islinebreak c).
    + destruct (Ascii.eqb c CR && Ascii.eqb LF LF).
      * exists [[]]. split; [done|by left].
      * exists [[]; []]. split; [done|by right].
    + exists [[c]]. split; [done|by left].
  - destruct IH1 as (X1 & HX1 & HX1').
    destruct IH2 as (X2 & HX2 & HX2').
    change (splitlines ((c :: d :: l) ++ LF :: b)) with
      (if islinebreak c then
         [] :: (if Ascii.eqb c CR && Ascii.eqb d LF
                then splitlines (l ++ LF :: b)
                else splitlines ((d :: l) ++ LF :: b))
       else match splitlines ((d :: l) ++ LF :: b) with
            | x :: xs => (c :: x) :: xs
            | [] => [[c]]
            end).
    change (splitlines (c :: d :: l)) with
      (if islinebreak c then
         [] :: (if Ascii.eqb c CR && Ascii.eqb d LF then splitlines l
                else splitlines (d :: l))
       else match splitlines (d :: l) with
            | x :: xs => (c :: x) :: xs
            | [] => [[c]]
            end).
    rewrite HX1, HX2. destruct (islinebreak c).
    + destruct (Ascii.eqb c CR && Ascii.eqb d LF).
      * exists ([] :: X1). split; [done|].
        destruct HX1' as [->| ->]; [by left|by right].
      * exists ([] :: X2). split; [done|].
        destruct HX2' as [->| ->]; [by left|by right].
    + pose proof (splitlines_cons_nonempty d l) as Hne.
      destruct (splitlines (d :: l)) as [|x xs] eqn:Hdl; [done|].
      destruct HX2' as [->| ->].
      * exists ((c :: x) :: xs). split; [done|by left].
      * exists ((c :: x) :: xs ++ [[]]). split; [done|by right].
Qed.

Lemma kept_lines_app (a b : list ascii) :
  islinebreak LF = true ->
  List.filter nonempty (map strip (splitlines (a ++ LF :: b)))
  = List.filter nonempty (map strip (splitlines a))
    ++ List.filter nonempty (map strip (splitlines b)).
Proof.
  intros HLF. destruct (splitlines_app a b HLF) as (X & -> & [->| ->]).
  - by rewrite map_app, List.filter_app.
  - rewrite !map_app, !List.filter_app. simpl. by rewrite app_nil_r.
Qed.

Lemma list_ascii_of_concat (opts : list string) :
  list_ascii_of_string (String.concat newline opts)
  = join_lines (map list_ascii_of_string opts).
Proof.
  induction opts as [|o opts IH]; [done|].
  destruct opts as [|o' opts]; [done|].
  change (String.concat newline (o :: o' :: opts))
    with (o ++ newline ++ String.concat newline (o' :: opts))%string.
  rewrite !list_ascii_of_string_app, IH. reflexivity.
Qed.

Lemma map_of_string_of_list (ls : list (list ascii)) :
  map list_ascii_of_string (map string_of_list_ascii ls) = ls.
Proof.
  rewrite map_map. rewrite <- (map_id ls) at 2.
  apply map_ext. intros l. apply list_ascii_of_string_of_list_ascii.
Qed.

Lemma map_of_list_of_string (opts : list string) :
  map string_of_list_ascii (map list_ascii_of_string opts) = opts.
Proof.
  rewrite map_map. rewrite <- (map_id opts) at 2.
  apply map_ext. intros o. apply string_of_list_ascii_of_string.
Qed.

(** X1: every parsed option is a text that is not empty, neither begins nor
    ends with whitespace, and holds no character that ends a line. *)
Theorem parsed_options_trimmed (q : Question.t) :
  Forall trimmed (Question.parsed_options q).
Proof.
  rewrite parsed_options_chars, Forall_map.
  eapply List.Forall_impl; [|apply kept_lines_trimmed].
  intros l Hl. unfold trimmed. by rewrite list_ascii_of_string_of_list_ascii.
Qed.

(** X2: when the options text is a list of trimmed texts joined by line
    feeds, [parsed_options] gives that list back, in its order and with its
    repetitions. *)
Theorem parsed_options_join (q : Question.t) (opts : list string) :
  islinebreak LF = true ->
  Forall trimmed opts ->
  Question.options q = String.concat newline opts ->
  Question.parsed_options q = opts.
Proof.
  intros HLF Hopts Hq.
  rewrite parsed_options_chars, Hq, list_ascii_of_concat, kept_lines_join.
  - apply map_of_list_of_string.
  - done.
  - by apply Forall_map.
Qed.

(** X3: an options text made of whitespace and line ends only, the empty
    text among them, has no parsed option. *)
Theorem parsed_options_blank (q : Question.t) :
  Forall (fun c => isspace c = true \/ islinebreak c = true)
    (list_ascii_of_string (Question.options q)) ->
  Question.parsed_options q = [].
Proof.
  intros Hq. by rewrite parsed_options_chars, kept_lines_blank.
Qed.

(** X4: parsing is stable: the parsed options of a question, joined by line
    feeds and parsed again, are the same options. *)
Theorem parsed_options_stable (q q' : Question.t) :
  islinebreak LF = true ->
  Question.options q' = String.concat newline (Question.parsed_options q) ->
  Question.parsed_options q' = Question.parsed_options q.
Proof.
  intros HLF Hq'.
  rewrite (parsed_options_chars q'), Hq', list_ascii_of_concat.
  rewrite parsed_options_chars, map_of_string_of_list.
  by rewrite kept_lines_join by (done || apply kept_lines_trimmed).
Qed.

(** X5: the parsed options of two options texts put one after the other
    with a line feed between them are those of the first followed by those
    of the second. *)
Theorem parsed_options_app (q qa qb : Question.t) :
  islinebreak LF = true ->
  Question.options q
  = (Question.options qa ++ newline ++ Question.options qb)%string ->
  Question.parsed_options q
  = Question.parsed_options qa ++ Question.parsed_options qb.
Proof.
  intros HLF Hq.
  rewrite !parsed_options_chars, Hq, !list_ascii_of_string_app.
  change (list_ascii_of_string newline ++ ?b) with (LF :: b).
  by rewrite kept_lines_app, map_app.
Qed.

End ParsedOptions.

(** ** The life of a survey *)

Lemma is_open_window (S : Survey.t) (T : datetime) :
  Survey.is_open S T = true <->
  Survey.starts_at S <= T /\
  match Survey.ends_at S with
  | Some e => T < e
  | None => True
  end.
Proof.
  unfold Survey.is_open. destruct (Survey.ends_at S) as [e|].
  - by rewrite andb_true_iff, Z.leb_le, Z.ltb_lt.
  - rewrite Z.leb_le. tauto.
Qed.

Lemma live_query_conditions (objects : list Survey.t) (S : Survey.t)
    (T : datetime) :
  In S (LiveSurveyManager.get_query_set objects T) <->
  In S objects /\ Survey.is_published S = true /\ Survey.starts_at S <= T /\
  (Survey.archive_policy S <> NEVER \/
   Survey.ends_at S = None \/
   exists e, Survey.ends_at S = Some e /\ e > T).
Proof.
  unfold LiveSurveyManager.get_query_set.
  rewrite in_order_by, !in_qs_filter, selects_and, selects_not_archived.
  unfold LiveSurveyManager.is_published__exact, LiveSurveyManager.starts_at__lte.
  rewrite !selects_lookup, andb_true_iff, Z.leb_le.
  destruct (Survey.is_published S); simpl; tauto.
Qed.

(** X6: the times at which a survey is open form an interval: a survey open
    at two times is open at every time between them. *)
Theorem is_open_interval (S : Survey.t) (T1 T T2 : datetime) :
  Survey.is_open S T1 = true -> Survey.is_open S T2 = true ->
  T1 <= T <= T2 ->
  Survey.is_open S T = true.
Proof.
  rewrite !is_open_window. intros [H1 _] [_ H2] HT. split; [lia|].
  destruct (Survey.ends_at S); [lia|done].
Qed.

(** X7: every published survey of the table that is open at a time is
    returned by the live manager's query at that time, whatever its archive
    policy. *)
Theorem open_published_is_live (objects : list Survey.t) (S : Survey.t)
    (T : datetime) :
  In S objects -> Survey.is_published S = true -> Survey.is_open S T = true ->
  In S (LiveSurveyManager.get_query_set objects T).
Proof.
  intros Hin Hpub [Hstart Hend]%is_open_window.
  apply live_query_conditions. repeat split; [done..|].
  right. destruct (Survey.ends_at S) as [e|]; [|by left].
  right. exists e. split; [done|lia].
Qed.

(** X8: a survey that the live manager returns at a time at which it is not
    open has ended, and its archive policy is not NEVER. *)
Theorem live_closed_has_ended (objects : list Survey.t) (S : Survey.t)
    (T : datetime) :
  In S (LiveSurveyManager.get_query_set objects T) ->
  Survey.is_open S T = false ->
  exists e, Survey.ends_at S = Some e /\ e <= T /\
            Survey.archive_policy S <> NEVER.
Proof.
  intros (_ & _ & Hstart & Hlive)%live_query_conditions Hclosed.
  assert (~ Survey.is_open S T = true) as Hnot by (by rewrite Hclosed).
  rewrite is_open_window in Hnot.
  destruct (Survey.ends_at S) as [e|]; [|tauto].
  exists e. assert (e <= T) by lia. repeat split; [done|].
  destruct Hlive as [?|[?|(e' & [= <-] & ?)]]; [done|done|lia].
Qed.

Lemma order_by_sorted {R} (le : R -> R -> bool) (rows : list R) :
  (forall a b, le a b = true \/ le b a = true) ->
  (forall a b c, le a b = true -> le b c = true -> le a c = true) ->
  StronglySorted (precedes le) (order_by le rows).
Proof.
  intros Htotal Htrans.
  assert (Total (precedes le)) by (intros a b; apply Htotal).
  assert (Transitive (precedes le)) by (intros a b c; apply Htrans).
  by apply StronglySorted_merge_sort.
Qed.

Lemma StronglySorted_weaken {A} (R1 R2 : A -> A -> Prop) (l : list A) :
  (forall a b, R1 a b -> R2 a b) -> StronglySorted R1 l -> StronglySorted R2 l.
Proof.
  intros HR. induction 1 as [|a l _ IH Ha]; constructor; [done|].
  eapply List.Forall_impl; [|done]. by auto.
Qed.

(** X9: the surveys the live manager returns come newest first: each one
    starts no earlier than every survey listed after it. *)
Theorem live_surveys_newest_first (objects : list Survey.t) (T : datetime) :
  StronglySorted (fun a b => Survey.starts_at b <= Survey.starts_at a)
    (LiveSurveyManager.get_query_set objects T).
Proof.
  unfold LiveSurveyManager.get_query_set.
  eapply StronglySorted_weaken; [|apply order_by_sorted].
  - intros a b. unfold precedes. by rewrite Z.leb_le.
  - intros a b. rewrite !Z.leb_le. lia.
  - intros a b c. rewrite !Z.leb_le. lia.
Qed.

(** X10: once a survey has started, its results do not go back into hiding:
    at a later time [public_submissions] over the same table is what it was,
    unless it was empty. *)
Theorem public_submissions_stay (objects : list Submission.t) (S : Survey.t)
    (T T' : datetime) :
  Survey.starts_at S <= T -> T <= T' ->
  Survey.public_submissions objects S T = [] \/
  Survey.public_submissions objects S T'
  = Survey.public_submissions objects S T.
Proof.
  intros Hstart HT. unfold Survey.public_submissions, qs_none.
  destruct (Survey.archive_policy S =? NEVER); [by left|].
  destruct (Survey.archive_policy S =? POST_CLOSE); [|by right].
  destruct (Survey.is_open S T) eqn:Hopen; [by left|]. right.
  assert (Survey.is_open S T' = false) as ->; [|done].
  apply not_true_is_false. intros Hopen'.
  assert (~ Survey.is_open S T = true) as Hnot by (by rewrite Hopen).
  rewrite is_open_window in Hnot, Hopen'.
  destruct (Survey.ends_at S); [lia|tauto].
Qed.

(** ** Writes to the value of an answer *)

Section AnswerWrites.
Context `{Builtins}.

(** X11: of two writes through [Answer.value], the second decides: writing
    [v2] after a write of [v1] leaves the answer as a single write of [v2]
    would, or fails as that write would. *)
Theorem answer_value_last_write (a a1 : Answer.t) (v1 v2 : value) :
  Answer.set a v1 = Ok a1 ->
  Answer.set a1 v2 = Answer.set a v2.
Proof.
  unfold Answer.set.
  destruct (String.eqb (Question.option_type (Answer.question a)) BOOLEAN)
    eqn:Hb.
  { intros [= <-]. simpl. by rewrite Hb. }
  destruct (String.eqb (Question.option_type (Answer.question a)) FLOAT)
    eqn:Hf.
  { destruct (float_ v1) as [f1|e1]; simpl; [|done].
    intros [= <-]. simpl. rewrite Hb, Hf. by destruct (float_ v2). }
  destruct (String.eqb (Question.option_type (Answer.question a)) INTEGER)
    eqn:Hi.
  { destruct (int_ v1) as [z1|e1]; simpl; [|done].
    intros [= <-]. simpl. rewrite Hb, Hf, Hi. by destruct (int_ v2). }
  intros [= <-]. simpl. by rewrite Hb, Hf, Hi.
Qed.

(** X12: a write through [Answer.value] raises exactly when the question's
    option type is float or integer and the builtin [float] or [int] raises
    on the value, and it raises what the builtin raises; a write to any
    other question does not raise. *)
Theorem answer_value_set_raises (a : Answer.t) (v : value) (e : exn) :
  Answer.set a v = Raise e <->
  (Question.option_type (Answer.question a) = "float" /\ float_ v = Raise e) \/
  (Question.option_type (Answer.question a) = "integer" /\ int_ v = Raise e).
Proof.
  unfold Answer.set, BOOLEAN, FLOAT, INTEGER.
  destruct (String.eqb_spec (Question.option_type (Answer.question a)) "bool")
    as [Hb|Hb].
  { rewrite Hb. split; [done|]. by intros [[? _]|[? _]]. }
  destruct (String.eqb_spec (Question.option_type (Answer.question a)) "float")
    as [Hf|Hf].
  { rewrite Hf. destruct (float_ v) as [f|e']; simpl.
    - split; [done|]. by intros [[_ ?]|[? _]].
    - split; [intros [= ->]; by left|]. by intros [[_ [= ->]]|[? _]]. }
  destruct (String.eqb_spec (Question.option_type (Answer.question a)) "integer")
    as [Hi|Hi].
  { rewrite Hi. destruct (int_ v) as [z|e']; simpl.
    - split; [done|]. by intros [[? _]|[_ ?]].
    - split; [intros [= ->]; by right|]. by intros [[? _]|[_ [= ->]]]. }
  split; [done|]. by intros [[? _]|[? _]].
Qed.

End AnswerWrites.

(** ** Effects of the answer dictionary *)

Lemma get_answer_dict_again (self : Submission.obj) (σ : Store) :
  Submission.get_answer_dict
    (Submission.get_answer_dict self σ).1.2 (Submission.get_answer_dict self σ).2
  = Submission.get_answer_dict self σ.
Proof.
  unfold Submission.get_answer_dict at 1. rewrite get_answer_dict_memo.
  by destruct (Submission.get_answer_dict self σ) as [[d self'] σ'].
Qed.

Lemma getattr_state (self : Submission.obj) (k : string) (σ : Store) :
  (Submission.__getattr__ self k σ).1.2 = (Submission.get_answer_dict self σ).1.2 /\
  (Submission.__getattr__ self k σ).2 = (Submission.get_answer_dict self σ).2.
Proof.
  unfold Submission.__getattr__.
  destruct (Submission.get_answer_dict self σ) as [[d self'] σ']. simpl.
  destruct (heap σ' !! d) as [m|]; [|done]. by destruct (m !! k).
Qed.

Lemma get_answer_dict_table (self : Submission.obj) (σ : Store) :
  answer_table (Submission.get_answer_dict self σ).2 = answer_table σ /\
  nulls_first (Submission.get_answer_dict self σ).2 = nulls_first σ /\
  Submission.row (Submission.get_answer_dict self σ).1.2 = Submission.row self.
Proof.
  unfold Submission.get_answer_dict.
  by destruct (Submission.__dict__ self !! "_answer_dict").
Qed.

(** X14: [get_answer_dict] changes no dictionary that exists: every address
    allocated before the call holds after it what it held before. *)
Theorem get_answer_dict_heap_frame (self : Submission.obj) (σ : Store) :
  heap σ ⊆ heap (Submission.get_answer_dict self σ).2.
Proof.
  unfold Submission.get_answer_dict.
  destruct (Submission.__dict__ self !! "_answer_dict"); simpl; [done|].
  apply insert_subseteq, not_elem_of_dom, is_fresh.
Qed.

Lemma answer_dict_after (self : Submission.obj) (σ : Store) :
  answer_dict (Submission.get_answer_dict self σ).1.2
    (Submission.get_answer_dict self σ).2
  = answer_dict self σ.
Proof.
  destruct (get_answer_dict_table self σ) as (Ht & Hn & Hr).
  unfold answer_dict, Submission.answer_set_all. by rewrite Ht, Hn, Hr.
Qed.

(** X15: attribute access keeps the memo current: after [__getattr__] on an
    object whose memo is current, whether it returned or raised, the object
    holds the address of the dictionary of the stored answers. *)
Theorem getattr_keeps_memo_current (self : Submission.obj) (k : string)
    (σ : Store) :
  memo_current self σ ->
  memo_current (Submission.__getattr__ self k σ).1.2
    (Submission.__getattr__ self k σ).2 /\
  is_Some (Submission.__dict__ (Submission.__getattr__ self k σ).1.2
             !! "_answer_dict").
Proof.
  intros Hmemo. destruct (getattr_state self k σ) as [-> ->].
  unfold memo_current. rewrite get_answer_dict_memo, answer_dict_after.
  split; [by apply get_answer_dict_current|by eexists].
Qed.



(** X17: after one attribute access on a submission object, a further one
    sends no statement and allocates nothing: the statements, the
    dictionaries and the object are as the first access left them. *)
Theorem getattr_again_is_free (self : Submission.obj) (k1 k2 : string)
    (σ : Store) :
  let first := Submission.__getattr__ self k1 σ in
  let second := Submission.__getattr__ first.1.2 k2 first.2 in
  queries second.2 = queries first.2 /\
  heap second.2 = heap first.2 /\
  second.1.2 = first.1.2.
Proof.
  simpl. destruct (getattr_state self k1 σ) as [Hobj Hstore].
  destruct (getattr_state (Submission.__getattr__ self k1 σ).1.2 k2
              (Submission.__getattr__ self k1 σ).2) as [-> ->].
  rewrite Hobj, Hstore, get_answer_dict_again. done.
Qed.

(** ** Order of the answers *)

Lemma nullable_le_total (nf : bool) (x y : nullable Z) :
  nullable_le nf x y = true \/ nullable_le nf y x = true.
Proof.
  destruct x as [a|], y as [b|], nf; simpl; auto.
  all: rewrite !Z.leb_le; lia.
Qed.

Lemma nullable_le_trans (nf : bool) (x y z : nullable Z) :
  nullable_le nf x y = true -> nullable_le nf y z = true ->
  nullable_le nf x z = true.
Proof.
  destruct x as [a|], y as [b|], z as [c|], nf; simpl; try done.
  all: rewrite !Z.leb_le; lia.
Qed.

(** X25: the answers of a submission are read in the order of their
    questions: in [answer_set_all] the [order] of the question of an answer
    comes, in the backend's order of nullable integers, no later than that
    of every answer after it. *)
Theorem answers_in_question_order (σ : Store) (self : Submission.obj) :
  StronglySorted
    (fun a b => nullable_le (nulls_first σ)
                  (Question.order (Answer.question a))
                  (Question.order (Answer.question b)) = true)
    (Submission.answer_set_all σ self).
Proof.
  unfold Submission.answer_set_all.
  eapply StronglySorted_weaken; [|apply order_by_sorted].
  - by intros a b.
  - intros a b. apply nullable_le_total.
  - intros a b c. apply nullable_le_trans.
Qed.


(** ** The further properties at the sample data *)

(** The options of the sample question as an editor left them. *)
Example scenario_parsed_options :
  Question.parsed_options Sample.colour = ["red"; "light blue"] /\
  Question.parsed_options (Sample.question 1 "age" "integer") = [].
Proof. split; reflexivity. Qed.

Lemma parsed_options_join_witness :
  Question.parsed_options Sample.colour_tidy = ["red"; "light blue"].
Proof.
  apply (@parsed_options_join str_classes Sample.colour_tidy
           ["red"; "light blue"]); [reflexivity| |reflexivity].
  repeat constructor.
Defined.

Lemma parsed_options_blank_witness :
  Question.parsed_options Sample.blank = [].
Proof.
  apply (@parsed_options_blank str_classes Sample.blank).
  repeat constructor.
Defined.

Lemma parsed_options_stable_witness :
  Question.parsed_options Sample.colour_tidy
  = Question.parsed_options Sample.colour.
Proof.
  apply (@parsed_options_stable str_classes Sample.colour Sample.colour_tidy);
    reflexivity.
Defined.

Lemma parsed_options_app_witness :
  Question.parsed_options Sample.colour_twice
  = Question.parsed_options Sample.colour
    ++ Question.parsed_options Sample.colour_tidy.
Proof.
  apply (@parsed_options_app str_classes Sample.colour_twice Sample.colour
           Sample.colour_tidy); reflexivity.
Defined.

Lemma is_open_interval_witness :
  Survey.is_open Sample.survey (Sample.day 19725) = true.
Proof.
  apply (is_open_interval Sample.survey Sample.jan_1 (Sample.day 19725)
           Sample.jan_5); [reflexivity|reflexivity|].
  unfold Sample.jan_1, Sample.jan_5, Sample.day. lia.
Defined.

Lemma open_published_is_live_witness :
  In Sample.survey
    (LiveSurveyManager.get_query_set [Sample.draft; Sample.survey] Sample.jan_5).
Proof.
  apply (open_published_is_live [Sample.draft; Sample.survey] Sample.survey
           Sample.jan_5); [right; left|..]; reflexivity.
Defined.

Lemma live_closed_has_ended_witness :
  exists e, Survey.ends_at Sample.survey = Some e /\ e <= Sample.jan_10 /\
            Survey.archive_policy Sample.survey <> NEVER.
Proof.
  apply (live_closed_has_ended [Sample.survey] Sample.survey Sample.jan_10);
    [left|]; reflexivity.
Defined.

Lemma public_submissions_stay_witness :
  Survey.public_submissions (views.submissions Sample.db) Sample.survey
    Sample.jan_8 = [] \/
  Survey.public_submissions (views.submissions Sample.db) Sample.survey
    Sample.jan_10
  = Survey.public_submissions (views.submissions Sample.db) Sample.survey
      Sample.jan_8.
Proof.
  apply (public_submissions_stay (views.submissions Sample.db) Sample.survey
           Sample.jan_8 Sample.jan_10);
    unfold Sample.survey, Sample.jan_1, Sample.jan_8, Sample.jan_10, Sample.day;
    simpl; lia.
Defined.

Lemma answer_value_last_write_witness :
  Answer.set (Answer.set_integer_answer Sample.age (VInt 41)) (VStr "42")
  = Answer.set Sample.age (VStr "42").
Proof.
  apply (@answer_value_last_write CPython.builtins Sample.age
           (Answer.set_integer_answer Sample.age (VInt 41))
           (VStr "41") (VStr "42")).
  reflexivity.
Defined.

Lemma getattr_keeps_memo_current_witness :
  memo_current
    (Submission.__getattr__ Sample.submission "colour" Sample.store).1.2
    (Submission.__getattr__ Sample.submission "colour" Sample.store).2 /\
  is_Some (Submission.__dict__
             (Submission.__getattr__ Sample.submission "colour" Sample.store).1.2
             !! "_answer_dict").
Proof.
  apply (getattr_keeps_memo_current Sample.submission "colour" Sample.store I).
Defined.

